(** * The Qdrant adapter of context_chat_backend

    A shallow embedding of [context_chat_backend/vectordb/qdrant.py]: the
    [VectorDB] class with its constructor and its five operations
    ([get_users], [setup_schema], [get_user_client], [get_metadata_filter],
    [get_objects_from_metadata]), followed by the properties of the adapter.

    Python values that cross the adapter are kept as the code has them:
    dictionaries are finite maps from strings, [None] is a value of its own,
    exceptions are an outcome next to the returned value, and the calls made
    on the Qdrant client are recorded in the order the adapter issues them.
    Any call on the client may raise: the adapter guards none of them. *)

From stdpp Require Import base option list strings gmap fin_maps.
From Stdlib Require Import ZArith Lia.

Local Open Scope string_scope.
Local Open Scope list_scope.
Local Open Scope Z_scope.

(** ** Python values *)

(** The values found in filters and payloads.  A dictionary has string keys,
    as every dictionary the adapter reads or builds has. *)
#[warnings="-register-all"]
Inductive pyval : Type :=
| PyNone
| PyInt (n : Z)
| PyStr (s : string)
| PyList (items : list pyval)
| PyDict (entries : gmap string pyval).

Abbreviation dict := (gmap string pyval).

(** ** Exceptions *)

(** The exception classes that can travel through the adapter.
    [ClientError] stands for any exception raised inside the [qdrant_client]
    library; [DbException] is the adapter's own, imported from [.base]. *)
Inductive exn : Type :=
| KeyError (key : string)
| IndexError
| AttributeError (what : string)
| ClientError (what : string)
| DbException (message : string).

(** The outcome of evaluating a Python expression or running a block. *)
Inductive outcome (A : Type) : Type :=
| Returned (value : A)
| Raised (e : exn).
Arguments Returned {A} value.
Arguments Raised {A} e.

Definition obind {A B} (m : outcome A) (k : A -> outcome B) : outcome B :=
  match m with
  | Returned a => k a
  | Raised e => Raised e
  end.

Declare Scope py_scope.
Delimit Scope py_scope with py.
Notation "'let!' x ':=' m 'in' k" := (obind m (fun x => k))
  (at level 10, x name, m at level 100, k at level 200) : py_scope.

(** [try: body except (KeyError, IndexError): handler]. *)
Definition except_KeyError_IndexError {A}
    (body : outcome A) (handler : outcome A) : outcome A :=
  match body with
  | Raised (KeyError _) => handler
  | Raised IndexError => handler
  | other => other
  end.

(** [d[k]] on a dictionary. *)
Definition subscript (d : dict) (k : string) : outcome pyval :=
  match d !! k with
  | Some v => Returned v
  | None => Raised (KeyError k)
  end.

(** [l[i]] on a list, for a non-negative index. *)
Definition item {A} (l : list A) (i : nat) : outcome A :=
  match l !! i with
  | Some x => Returned x
  | None => Raised IndexError
  end.

(** [d.get(k)]: [None] when the key is absent. *)
Definition dict_get (d : dict) (k : string) : pyval :=
  default PyNone (d !! k).

(** A list comprehension [[body(f) for f in l]], stopping at the first
    element whose body raises. *)
Fixpoint comprehension {A B} (body : A -> outcome B) (l : list A)
    : outcome (list B) :=
  match l with
  | [] => Returned []
  | x :: rest =>
      (let! y := body x in
       let! ys := comprehension body rest in
       Returned (y :: ys))%py
  end.

(** ** get_metadata_filter *)

(** A [MetadataFilter] is a typed dictionary; at run time it is a [dict],
    and nothing stops a caller from leaving a key out. *)
Abbreviation MetadataFilter := (gmap string pyval) (only parsing).

(** [{'key': f['metadata_key'], 'match': {'value': f['values']}}] *)
Definition exact_match (f : MetadataFilter) : outcome pyval :=
  (let! k := subscript f "metadata_key" in
   let! v := subscript f "values" in
   Returned
     (PyDict (<["key" := k]> (<["match" := PyDict {["value" := v]}]> ∅))))%py.

Definition get_metadata_filter (filters : list MetadataFilter)
    : outcome (option dict) :=
  if (length filters =? 0)%nat then Returned None
  else
    except_KeyError_IndexError
      (if (length filters =? 1)%nat then
         (let! f0 := item filters 0 in
          let! k := subscript f0 "metadata_key" in
          let! f0' := item filters 0 in
          let! v := subscript f0' "values" in
          Returned
            (Some (<["key" := k]>
                     (<["match" := PyDict {["value" := v]}]> ∅))))%py
       else
         (let! alternatives := comprehension exact_match filters in
          Returned (Some {["should" := PyList alternatives]}))%py)
      (Returned None).

(** ** Filters: well-formed and malformed *)

(** A filter with both required keys. *)
Definition well_formed (f : MetadataFilter) : Prop :=
  is_Some (f !! "metadata_key") ∧ is_Some (f !! "values").

(** A filter that lacks ['metadata_key'] or ['values']. *)
Definition missing_key (f : MetadataFilter) : Prop :=
  f !! "metadata_key" = None ∨ f !! "values" = None.

#[global] Instance well_formed_dec f : Decision (well_formed f).
Proof. unfold well_formed. apply _. Defined.

#[global] Instance missing_key_dec f : Decision (missing_key f).
Proof. unfold missing_key. apply _. Defined.

(** The exact-match filter [{'key': k, 'match': {'value': v}}]. *)
Definition exact_match_filter (k v : pyval) : dict :=
  <["key" := k]> (<["match" := PyDict (<["value" := v]> ∅)]> ∅).

(** [a] is the exact-match filter of [f]. *)
Definition exact_match_of (f : MetadataFilter) (a : pyval) : Prop :=
  ∃ k v, f !! "metadata_key" = Some k ∧ f !! "values" = Some v
         ∧ a = PyDict (exact_match_filter k v).

(** The filter list built by [get_objects_from_metadata]. *)
Definition lookup_filter (metadata_key : string) (values : list string)
    : MetadataFilter :=
  <["metadata_key" := PyStr metadata_key]>
    (<["values" := PyList (PyStr <$> values)]> ∅).

(** *** Sample inputs *)

(** Two filters, the second without ['values']. *)
Definition malformed_sample : list MetadataFilter :=
  [ lookup_filter "source" ["files__default: 12"];
    <["metadata_key" := PyStr "provider"]> ∅ ].

(** Two filters with both keys. *)
Definition well_formed_sample : list MetadataFilter :=
  [ lookup_filter "source" ["files__default: 12"; "files__default: 13"];
    lookup_filter "provider" ["files__default"] ].

(** ** The Qdrant service behind the client *)

Inductive Distance : Type := COSINE | EUCLID | DOT | MANHATTAN.

(** [rest.VectorParams(size=..., distance=...)] *)
Record VectorParams : Type := {
  size_ : Z;
  distance : Distance
}.

(** One entry of [class_schema['properties']]. *)
Record Property : Type := {
  prop_name : string;
  prop_type : string;
  description : string
}.

(** The module-level [class_schema] dictionary. *)
Record ClassSchema : Type := {
  properties : list Property;
  vector_size : Z;
  schema_distance : string
}.

Definition class_schema : ClassSchema := {|
  properties := [
    {| prop_name := "text"; prop_type := "text";
       description := "The actual text" |};
    {| prop_name := "type"; prop_type := "text";
       description := "The type of source/mimetype of file" |};
    {| prop_name := "title"; prop_type := "text";
       description := "The name or subject of the source" |};
    {| prop_name := "source"; prop_type := "text";
       description :=
         "The source of the text (for files: `files__default: fileId`)" |};
    {| prop_name := "start_index"; prop_type := "integer";
       description := "Start index of chunk" |};
    {| prop_name := "modified"; prop_type := "text";
       description := "Last modified time of the file" |};
    {| prop_name := "provider"; prop_type := "text";
       description := "The provider of the source" |}
  ];
  vector_size := 768;
  schema_distance := "Cosine"
|}.

(** A collection as the service stores it. *)
Record Collection : Type := {
  name : string;
  vectors_config : VectorParams;
  payload_schema : list Property
}.

(** A point id is an integer or a string (a UUID). *)
Inductive PointId : Type :=
| IntId (n : Z)
| StrId (s : string).

(** A search hit.  [payload] is optional in the client's type. *)
Record ScoredPoint : Type := {
  id : PointId;
  payload : option dict
}.

(** The arguments of [client.search(...)].  The components of a query
    vector are floating-point numbers, which the adapter never builds. *)
Record SearchRequest : Type := {
  collection_name : string;
  query_vector : option (list Z);
  query_filter : dict;
  limit : nat
}.

(** The calls the adapter makes on the client. *)
Inductive ClientCall : Type :=
| GetCollections
| CreateCollection (c : Collection)
| Search (request : SearchRequest).

(** The state of the remote service, with the log of the calls received,
    oldest first. *)
Record Qdrant : Type := {
  collections : list Collection;
  calls : list ClientCall
}.

Definition logged (call : ClientCall) (q : Qdrant) : Qdrant :=
  {| collections := collections q; calls := calls q ++ [call] |}.

(** A [QdrantClient] object: the connection parameters it was built with. *)
Record QdrantClient : Type := {
  url : option string;
  api_key : option string
}.

(** An [Embeddings] object, known by its identity only. *)
Inductive Embeddings : Type := EmbeddingsObject (oid : nat).

(** ** A state and exception monad over the service *)

Definition M (A : Type) : Type := Qdrant -> outcome A * Qdrant.

Definition ret {A} (a : A) : M A := fun q => (Returned a, q).

Definition raise {A} (e : exn) : M A := fun q => (Raised e, q).

Definition bind {A B} (m : M A) (k : A -> M B) : M B :=
  fun q =>
    match m q with
    | (Returned a, q') => k a q'
    | (Raised e, q') => (Raised e, q')
    end.

Definition lift {A} (o : outcome A) : M A := fun q => (o, q).

Declare Scope qdrant_scope.
Delimit Scope qdrant_scope with qdrant.
Notation "'let!' x ':=' m 'in' k" := (bind m (fun x => k))
  (at level 10, x name, m at level 100, k at level 200) : qdrant_scope.
Notation "'run!' m 'in' k" := (bind m (fun _ => k))
  (at level 10, m at level 100, k at level 200) : qdrant_scope.

(** ** The adapter *)

(** The langchain [VectorStore] handle returned by [get_user_client]. *)
Record VectorStore : Type := {
  store_client : option QdrantClient;
  store_collection_name : string;
  text_key : string;
  store_embedding : option Embeddings
}.

(** The fields of a [VectorDB] instance. *)
Record VectorDB : Type := {
  client : option QdrantClient;
  embedding : option Embeddings
}.

(** One value of [TSearchDict]: [{'id': ..., 'modified': ...}]. *)
Record SearchEntry : Type := {
  entry_id : PointId;
  modified : pyval
}.

Abbreviation TSearchDict := (gmap string SearchEntry).

(** [a or b] on optional objects: an object is truthy, [None] is not. *)
Definition py_or {A} (a b : option A) : option A :=
  match a with
  | Some x => Some x
  | None => b
  end.

(** [x in values] for a list of strings: only an equal string is found. *)
Definition py_in (x : pyval) (values : list string) : bool :=
  match x with
  | PyStr s => bool_decide (s ∈ values)
  | _ => false
  end.

(** Modelled from the spec: the helpers [get_collection_name] and
    [get_user_id_from_collection] live in the package's [__init__], outside
    this module.  The spec has a collection "named deterministically from a
    user identifier" and has [get_users] map each collection "back to a user
    identifier": reading a collection name gives back the user it was made
    for. *)
Definition naming_round_trips
    (get_collection_name get_user_id_from_collection : string -> string)
    : Prop :=
  ∀ user_id, get_user_id_from_collection (get_collection_name user_id) = user_id.

(** The service honours the [limit] of a search. *)
Definition honours_limit
    (search_backend : list Collection -> SearchRequest -> list ScoredPoint)
    : Prop :=
  ∀ collections request,
    (length (search_backend collections request) ≤ limit request)%nat.

(** *** Sample surroundings *)

Definition sample_collection_name (user_id : string) : string :=
  "Vector_user_" +:+ user_id.

Definition sample_user_id (collection_name : string) : string :=
  String.substring 12 (String.length collection_name - 12) collection_name.

Definition sample_environ : gmap string string :=
  <["QDRANT_URL" := "http://localhost:6333"]> ∅.

Definition sample_new (url api_key : option string) : outcome QdrantClient :=
  match url with
  | Some _ => Returned {| url := url; api_key := api_key |}
  | None => Raised (ClientError "no url")
  end.

Definition sample_hits : list ScoredPoint :=
  [ {| id := IntId 7;
       payload := Some (<["source" := PyStr "files__default: 12"]>
                          (<["modified" := PyStr "1700000000"]> ∅)) |};
    {| id := IntId 8;
       payload := Some (<["source" := PyStr "files__default: 99"]> ∅) |};
    {| id := StrId "c0ffee";
       payload := Some (<["source" := PyStr "files__default: 12"]>
                          (<["modified" := PyStr "1700000500"]> ∅)) |} ].

Definition sample_backend (collections : list Collection)
    (request : SearchRequest) : list ScoredPoint :=
  take (limit request) sample_hits.

Definition sample_client : QdrantClient :=
  {| url := Some "http://localhost:6333"; api_key := None |}.

Definition sample_self : VectorDB :=
  {| client := Some sample_client; embedding := None |}.

Definition empty_service : Qdrant := {| collections := []; calls := [] |}.

(** A service that answers every call. *)
Definition sample_fails (call : ClientCall) (q : Qdrant) : option string :=
  None.

(** A service that is down: every call raises. *)
Definition sample_outage (call : ClientCall) (q : Qdrant) : option string :=
  Some "connection refused".

Section Adapter.

(** The two helpers imported from the package's [__init__], which name a
    user's collection and read the user back from a collection name. *)
Variable get_collection_name : string -> string.
Variable get_user_id_from_collection : string -> string.

(** The process environment, after [load_dotenv()]. *)
Variable environ : gmap string string.

(** What [QdrantClient(url=..., api_key=...)] does: it returns a client
    or raises. *)
Variable QdrantClient_new :
  option string -> option string -> outcome QdrantClient.

(** What the service answers to a search over its collections. *)
Variable search_backend : list Collection -> SearchRequest -> list ScoredPoint.

(** Whether a call on the client raises, and with what message, given the
    state of the service and the calls it has received when the call
    arrives; [None] when the call is answered. *)
Variable fails : ClientCall -> Qdrant -> option string.

Definition getenv (key : string) : option string := environ !! key.

(** *** The client's methods *)

(** A call on the client reaches the service, which answers it or not; when
    it does not, the client raises and the collections stay as they were. *)
Definition client_call {A} (call : ClientCall)
    (answer : Qdrant -> outcome A * Qdrant) : M A :=
  fun q =>
    match fails call q with
    | Some what => (Raised (ClientError what), logged call q)
    | None => answer q
    end.

(** [client.get_collections().collections] *)
Definition client_get_collections (c : QdrantClient) : M (list Collection) :=
  client_call GetCollections
    (fun q => (Returned (collections q), logged GetCollections q)).

(** [client.create_collection(...)]; besides its other failures, the
    service refuses a name it already has. *)
Definition client_create_collection (c : QdrantClient) (coll : Collection)
    : M unit :=
  client_call (CreateCollection coll)
    (fun q =>
       if bool_decide (name coll ∈ name <$> collections q) then
         (Raised (ClientError "collection already exists"),
          logged (CreateCollection coll) q)
       else
         (Returned tt,
          {| collections := collections q ++ [coll];
             calls := calls q ++ [CreateCollection coll] |})).

(** [client.search(...)] *)
Definition client_search (c : QdrantClient) (request : SearchRequest)
    : M (list ScoredPoint) :=
  client_call (Search request)
    (fun q =>
       (Returned (search_backend (collections q) request),
        logged (Search request) q)).

(** *** The class [VectorDB] *)

Definition __init__ (embedding : option Embeddings) : outcome VectorDB :=
  match QdrantClient_new (getenv "QDRANT_URL") (getenv "QDRANT_APIKEY") with
  | Raised e => Raised (DbException "Error: Qdrant connection error")
  | Returned client => Returned {| client := Some client; embedding := embedding |}
  end.

Definition get_users (self : VectorDB) : M (list string) :=
  match client self with
  | None => raise (DbException "Error: Qdrant client not initialised")
  | Some c =>
      (let! collections := client_get_collections c in
       ret ((fun coll => get_user_id_from_collection (name coll))
              <$> collections))%qdrant
  end.

Definition setup_schema (self : VectorDB) (user_id : string) : M unit :=
  match client self with
  | None => raise (DbException "Error: Qdrant client not initialised")
  | Some c =>
      let collection_name := get_collection_name user_id in
      (let! collections := client_get_collections c in
       if bool_decide (collection_name ∈ name <$> collections) then ret tt
       else
         client_create_collection c
           {| name := collection_name;
              vectors_config := {| size_ := 768; distance := COSINE |};
              payload_schema := properties class_schema |})%qdrant
  end.

Definition get_user_client (self : VectorDB) (user_id : string)
    (embedding_ : option Embeddings) : M VectorStore :=
  (run! setup_schema self user_id in
   let qdrant_obj :=
     {| store_client := client self;
        store_collection_name := get_collection_name user_id;
        text_key := "text";
        store_embedding := py_or (embedding self) embedding_ |} in
   ret qdrant_obj)%qdrant.

(** The loop over the hits of [get_objects_from_metadata]. *)
Fixpoint collect_hits (metadata_key : string) (values : list string)
    (search_result : list ScoredPoint) (output : TSearchDict)
    : outcome TSearchDict :=
  match search_result with
  | [] => Returned output
  | hit :: rest =>
      match payload hit with
      | None =>
          Raised (AttributeError "'NoneType' object has no attribute 'get'")
      | Some payload =>
          let key_value := dict_get payload metadata_key in
          if py_in key_value values then
            match key_value with
            | PyStr key =>
                collect_hits metadata_key values rest
                  (<[key := {| entry_id := id hit;
                               modified := dict_get payload "modified" |}]>
                     output)
            | _ => collect_hits metadata_key values rest output
            end
          else collect_hits metadata_key values rest output
      end
  end.

Definition get_objects_from_metadata (self : VectorDB) (user_id : string)
    (metadata_key : string) (values : list string) : M TSearchDict :=
  match client self with
  | None => raise (DbException "Error: Qdrant client not initialised")
  | Some c =>
      (run! setup_schema self user_id in
       let! query_filter :=
         lift (get_metadata_filter
                 [ <["metadata_key" := PyStr metadata_key]>
                     (<["values" := PyList (PyStr <$> values)]> ∅) ]) in
       match query_filter with
       | None => raise (DbException "Error: Qdrant metadata filter error")
       | Some query_filter =>
           let! search_result :=
             client_search c
               {| collection_name := get_collection_name user_id;
                  query_vector := None;
                  query_filter := query_filter;
                  limit := 100 |} in
           lift (collect_hits metadata_key values search_result ∅)
       end)%qdrant
  end.

(** *** Every entry point of the adapter *)

Inductive operation : Type :=
| Construct (embedding : option Embeddings)
| GetUsers
| SetupSchema (user_id : string)
| GetUserClient (user_id : string) (embedding : option Embeddings)
| GetMetadataFilter (filters : list MetadataFilter)
| GetObjectsFromMetadata (user_id metadata_key : string)
    (values : list string).

Definition exception_of {A} (o : outcome A) : option exn :=
  match o with
  | Returned _ => None
  | Raised e => Some e
  end.

(** The exception, if any, that leaves an operation run on [self] against
    the service in state [q]. *)
Definition raised_by (op : operation) (self : VectorDB) (q : Qdrant)
    : option exn :=
  match op with
  | Construct embedding => exception_of (__init__ embedding)
  | GetUsers => exception_of (get_users self q).1
  | SetupSchema user_id => exception_of (setup_schema self user_id q).1
  | GetUserClient user_id embedding =>
      exception_of (get_user_client self user_id embedding q).1
  | GetMetadataFilter filters => exception_of (get_metadata_filter filters)
  | GetObjectsFromMetadata user_id metadata_key values =>
      exception_of
        (get_objects_from_metadata self user_id metadata_key values q).1
  end.

(** The collection that [setup_schema] asks the service to create. *)
Definition user_collection (user_id : string) : Collection :=
  {| name := get_collection_name user_id;
     vectors_config := {| size_ := 768; distance := COSINE |};
     payload_schema := properties class_schema |}.

(** The search that [get_objects_from_metadata] asks for. *)
Definition metadata_search (user_id metadata_key : string)
    (values : list string) : SearchRequest :=
  {| collection_name := get_collection_name user_id;
     query_vector := None;
     query_filter :=
       exact_match_filter (PyStr metadata_key) (PyList (PyStr <$> values));
     limit := 100 |}.



(** The service answers [call] when it arrives in state [q]. *)
Definition answered (call : ClientCall) (q : Qdrant) : Prop :=
  fails call q = None.

(** The service answers the calls of [setup_schema]: the listing and, when
    the user has no collection yet, the creation that follows it. *)
Definition setup_schema_answered (user_id : string) (q : Qdrant) : Prop :=
  answered GetCollections q
  ∧ (get_collection_name user_id ∈ name <$> collections q
     ∨ answered (CreateCollection (user_collection user_id))
         (logged GetCollections q)).

(** The service as an operation leaves it, whether it returned or raised. *)
Definition state_after (op : operation) (self : VectorDB) (q : Qdrant)
    : Qdrant :=
  match op with
  | Construct _ => q
  | GetUsers => (get_users self q).2
  | SetupSchema user_id => (setup_schema self user_id q).2
  | GetUserClient user_id embedding =>
      (get_user_client self user_id embedding q).2
  | GetMetadataFilter _ => q
  | GetObjectsFromMetadata user_id metadata_key values =>
      (get_objects_from_metadata self user_id metadata_key values q).2
  end.

(** ** Properties of get_metadata_filter *)

Lemma missing_key_not_well_formed f : missing_key f ↔ ¬ well_formed f.
Proof.
  unfold missing_key, well_formed. split.
  - intros [H | H] [[k Hk] [v Hv]]; congruence.
  - intros H. destruct (f !! "metadata_key") as [k|] eqn:Hk; [|by left].
    destruct (f !! "values") as [v|] eqn:Hv; [|by right].
    exfalso. apply H. split; eauto.
Qed.

Lemma exact_match_well_formed f k v :
  f !! "metadata_key" = Some k → f !! "values" = Some v →
  exact_match f = Returned (PyDict (exact_match_filter k v)).
Proof.
  intros Hk Hv. unfold exact_match, subscript. rewrite Hk, Hv. reflexivity.
Qed.

Lemma exact_match_missing_key f :
  missing_key f → ∃ key, exact_match f = Raised (KeyError key).
Proof.
  unfold exact_match, subscript. intros [H | H].
  - rewrite H. eauto.
  - destruct (f !! "metadata_key"); rewrite ?H; simpl; eauto.
Qed.

(** The body of a comprehension raises only what an element raises. *)
Lemma comprehension_missing_key filters :
  Exists missing_key filters →
  ∃ key, comprehension exact_match filters = Raised (KeyError key).
Proof.
  induction filters as [|f rest IH]; intros Hex.
  - inversion Hex.
  - simpl. destruct (decide (well_formed f)) as [Hwf | Hf].
    + destruct Hwf as [[k Hk] [v Hv]].
      rewrite (exact_match_well_formed f k v Hk Hv). simpl.
      apply Exists_cons in Hex as [Hhead | Htail].
      * destruct Hhead; congruence.
      * destruct (IH Htail) as [key ->]. simpl. eauto.
    + apply missing_key_not_well_formed in Hf.
      destruct (exact_match_missing_key f Hf) as [key ->]. simpl. eauto.
Qed.

Lemma comprehension_well_formed filters :
  Forall well_formed filters →
  ∃ alternatives,
    comprehension exact_match filters = Returned alternatives
    ∧ Forall2 exact_match_of filters alternatives.
Proof.
  induction 1 as [|f rest [[k Hk] [v Hv]] _ [alts [IH1 IH2]]].
  - exists []. split; [reflexivity | constructor].
  - exists (PyDict (exact_match_filter k v) :: alts). simpl.
    rewrite (exact_match_well_formed f k v Hk Hv). simpl. rewrite IH1. simpl.
    split; [reflexivity |]. constructor; [|done]. exists k, v. done.
Qed.

Lemma get_metadata_filter_missing_key filters :
  Exists missing_key filters → get_metadata_filter filters = Returned None.
Proof.
  intros Hex. unfold get_metadata_filter.
  destruct filters as [|f [|g rest]].
  - reflexivity.
  - simpl. apply Exists_cons in Hex as [Hf | Hnil]; [|inversion Hnil].
    unfold subscript. destruct Hf as [H | H].
    + rewrite H. reflexivity.
    + destruct (f !! "metadata_key"); simpl; rewrite ?H; reflexivity.
  - destruct (comprehension_missing_key _ Hex) as [key Hkey].
    change (length (f :: g :: rest) =? 0)%nat with false.
    change (length (f :: g :: rest) =? 1)%nat with false.
    cbv iota. rewrite Hkey. reflexivity.
Qed.

Lemma get_metadata_filter_single f k v :
  f !! "metadata_key" = Some k → f !! "values" = Some v →
  get_metadata_filter [f] = Returned (Some (exact_match_filter k v)).
Proof.
  intros Hk Hv. unfold get_metadata_filter, item, subscript. simpl.
  rewrite Hk. simpl. rewrite Hv. reflexivity.
Qed.

Lemma get_metadata_filter_lookup_filter metadata_key values :
  get_metadata_filter [lookup_filter metadata_key values]
  = Returned (Some (exact_match_filter (PyStr metadata_key)
                      (PyList (PyStr <$> values)))).
Proof.
  apply get_metadata_filter_single; unfold lookup_filter.
  - apply lookup_insert_eq.
  - rewrite lookup_insert_ne by done. apply lookup_insert_eq.
Qed.

(** C4.  A filter list in which some element lacks ['metadata_key'] or
    ['values'] makes [get_metadata_filter] return [None]; the [KeyError] of
    the missing key is caught inside and nothing is raised. *)
Theorem get_metadata_filter_malformed_returns_None filters :
  Exists missing_key filters →
  get_metadata_filter filters = Returned None
  ∧ ∀ e, get_metadata_filter filters ≠ Raised e.
Proof.
  intros Hex. rewrite (get_metadata_filter_missing_key filters Hex).
  split; [reflexivity | discriminate].
Qed.

Lemma get_metadata_filter_malformed_returns_None_witness :
  Exists missing_key malformed_sample
  ∧ get_metadata_filter malformed_sample = Returned None.
Proof.
  assert (H : Exists missing_key malformed_sample).
  { apply (bool_decide_unpack _). vm_compute. exact I. }
  split; [exact H |].
  exact (proj1 (get_metadata_filter_malformed_returns_None malformed_sample H)).
Defined.

(** C5.  On a non-empty list of well-formed filters,
    [get_metadata_filter] returns the exact-match filter
    [{'key': k, 'match': {'value': v}}] of the only element when the list has
    one element, and [{'should': [...]}] with the exact-match filter of every
    element, in list order, when it has two or more. *)
Theorem get_metadata_filter_well_formed filters :
  filters ≠ [] →
  Forall well_formed filters →
  (∀ f, filters = [f] →
     ∃ k v, f !! "metadata_key" = Some k ∧ f !! "values" = Some v
            ∧ get_metadata_filter filters
              = Returned (Some (exact_match_filter k v)))
  ∧ ((2 ≤ length filters)%nat →
     ∃ alternatives,
       Forall2 exact_match_of filters alternatives
       ∧ get_metadata_filter filters
         = Returned (Some {["should" := PyList alternatives]})).
Proof.
  intros Hne Hwf. split.
  - intros f ->. apply Forall_inv in Hwf as [[k Hk] [v Hv]].
    exists k, v. split; [done |]. split; [done |].
    by apply get_metadata_filter_single.
  - intros Hlen.
    destruct (comprehension_well_formed filters Hwf) as [alts [Hc Hall]].
    exists alts. split; [done |].
    unfold get_metadata_filter.
    destruct filters as [|f [|g rest]]; simpl in Hlen; try lia.
    change (length (f :: g :: rest) =? 0)%nat with false.
    change (length (f :: g :: rest) =? 1)%nat with false.
    cbv iota. rewrite Hc. reflexivity.
Qed.

Lemma get_metadata_filter_well_formed_witness :
  well_formed_sample ≠ []
  ∧ Forall well_formed well_formed_sample
  ∧ ∃ alternatives,
      Forall2 exact_match_of well_formed_sample alternatives
      ∧ get_metadata_filter well_formed_sample
        = Returned (Some {["should" := PyList alternatives]}).
Proof.
  assert (Hne : well_formed_sample ≠ []) by discriminate.
  assert (Hwf : Forall well_formed well_formed_sample).
  { apply (bool_decide_unpack _). vm_compute. exact I. }
  split; [exact Hne |]. split; [exact Hwf |].
  apply (get_metadata_filter_well_formed well_formed_sample Hne Hwf).
  unfold well_formed_sample. simpl. lia.
Defined.

(** C10.  The empty filter list gives [None], the value also given for a
    malformed list: the two cases have the same result. *)
Theorem get_metadata_filter_empty_like_malformed :
  get_metadata_filter [] = Returned None
  ∧ ∀ filters,
      Exists missing_key filters →
      get_metadata_filter filters = get_metadata_filter [].
Proof.
  split; [reflexivity |].
  intros filters Hex. by rewrite get_metadata_filter_missing_key.
Qed.

Lemma get_metadata_filter_empty_like_malformed_witness :
  Exists missing_key malformed_sample
  ∧ get_metadata_filter malformed_sample = get_metadata_filter [].
Proof.
  assert (H : Exists missing_key malformed_sample).
  { apply (bool_decide_unpack _). vm_compute. exact I. }
  split; [exact H |].
  exact (proj2 get_metadata_filter_empty_like_malformed malformed_sample H).
Defined.

(** ** Further properties of get_metadata_filter *)

Lemma comprehension_exact_match_outcome filters :
  (∃ alternatives, comprehension exact_match filters = Returned alternatives)
  ∨ (∃ key, comprehension exact_match filters = Raised (KeyError key)).
Proof.
  destruct (decide (Forall well_formed filters)) as [Hwf | Hbad].
  - left. destruct (comprehension_well_formed filters Hwf) as [alts [H _]].
    eauto.
  - right. apply comprehension_missing_key.
    apply not_Forall_Exists in Hbad; [|apply _].
    eapply Exists_impl; [exact Hbad |].
    intros f Hf. by apply missing_key_not_well_formed.
Qed.

(** [get_metadata_filter] raises nothing, whatever the list. *)
Lemma get_metadata_filter_returns filters :
  ∃ result, get_metadata_filter filters = Returned result.
Proof.
  destruct (decide (Exists missing_key filters)) as [Hbad | Hgood].
  - rewrite get_metadata_filter_missing_key by done. eauto.
  - unfold get_metadata_filter. destruct filters as [|f [|g rest]].
    + simpl. eauto.
    + simpl. unfold subscript.
      destruct (f !! "metadata_key") as [k|] eqn:Hk; simpl; [|eauto].
      destruct (f !! "values") as [v|] eqn:Hv; simpl; eauto.
    + change (length (f :: g :: rest) =? 0)%nat with false.
      change (length (f :: g :: rest) =? 1)%nat with false.
      cbv iota.
      destruct (comprehension_exact_match_outcome (f :: g :: rest))
        as [[alts ->] | [key ->]]; simpl; eauto.
Qed.

Lemma get_metadata_filter_should filters alternatives :
  (2 ≤ length filters)%nat →
  comprehension exact_match filters = Returned alternatives →
  get_metadata_filter filters
  = Returned (Some {["should" := PyList alternatives]}).
Proof.
  intros Hlen Hc. unfold get_metadata_filter.
  destruct filters as [|f [|g rest]]; simpl in Hlen; try lia.
  change (length (f :: g :: rest) =? 0)%nat with false.
  change (length (f :: g :: rest) =? 1)%nat with false.
  cbv iota. rewrite Hc. reflexivity.
Qed.

Lemma get_metadata_filter_Some_well_formed filters :
  filters ≠ [] → Forall well_formed filters →
  ∃ query_filter, get_metadata_filter filters = Returned (Some query_filter).
Proof.
  intros Hne Hwf. destruct filters as [|f [|g rest]]; [done | |].
  - apply Forall_inv in Hwf as [[k Hk] [v Hv]].
    rewrite (get_metadata_filter_single f k v Hk Hv). eauto.
  - destruct (comprehension_well_formed _ Hwf) as [alts [Hc _]].
    rewrite (get_metadata_filter_should _ alts); [eauto | simpl; lia | done].
Qed.

Lemma not_well_formed_missing_key filters :
  ¬ Forall well_formed filters → Exists missing_key filters.
Proof.
  intros Hbad. apply not_Forall_Exists in Hbad; [|apply _].
  eapply Exists_impl; [exact Hbad |].
  intros f Hf. by apply missing_key_not_well_formed.
Qed.

Lemma missing_key_not_all_well_formed filters :
  Exists missing_key filters → ¬ Forall well_formed filters.
Proof.
  intros Hex Hall. apply Exists_exists in Hex as (f & Hin & Hmiss).
  rewrite Forall_forall in Hall.
  apply missing_key_not_well_formed in Hmiss. apply Hmiss. by apply Hall.
Qed.

(** X1.  [get_metadata_filter] never raises.  It returns a dictionary
    exactly when the list is non-empty and every element has both
    ['metadata_key'] and ['values'], and [None] exactly when the list is
    empty or some element lacks one of the two keys. *)
Theorem get_metadata_filter_outcome filters :
  ((∃ query_filter,
      get_metadata_filter filters = Returned (Some query_filter))
   ↔ filters ≠ [] ∧ Forall well_formed filters)
  ∧ (get_metadata_filter filters = Returned None
     ↔ filters = [] ∨ Exists missing_key filters)
  ∧ ∀ e, get_metadata_filter filters ≠ Raised e.
Proof.
  destruct (decide (filters = [])) as [-> | Hne].
  { split; [|split].
    - split; [intros [qf Hqf]; discriminate | intros [? _]; done].
    - split; [by left | reflexivity].
    - discriminate. }
  destruct (decide (Forall well_formed filters)) as [Hwf | Hbad].
  - destruct (get_metadata_filter_Some_well_formed filters Hne Hwf)
      as [qf Hqf].
    rewrite Hqf. split; [|split].
    + split; eauto.
    + split; [discriminate |].
      intros [? | Hex]; [done |].
      by apply missing_key_not_all_well_formed in Hex.
    + discriminate.
  - pose proof (not_well_formed_missing_key filters Hbad) as Hex.
    rewrite (get_metadata_filter_missing_key filters Hex). split; [|split].
    + split; [intros [qf Hqf]; discriminate | intros [_ ?]; done].
    + split; [by right | reflexivity].
    + discriminate.
Qed.

(** ** The loop over the hits *)

Lemma dict_get_str (p : dict) k s :
  dict_get p k = PyStr s ↔ p !! k = Some (PyStr s).
Proof.
  unfold dict_get. destruct (p !! k) as [v|]; simpl; split;
    intros H; try congruence; discriminate.
Qed.

(** One turn of the loop either leaves [output] alone or stores the hit
    under the string found in its payload. *)
Lemma collect_hits_cons metadata_key values hit rest output p :
  payload hit = Some p →
  collect_hits metadata_key values (hit :: rest) output
  = collect_hits metadata_key values rest
      (match dict_get p metadata_key with
       | PyStr key =>
           if bool_decide (key ∈ values) then
             <[key := {| entry_id := id hit;
                         modified := dict_get p "modified" |}]> output
           else output
       | _ => output
       end).
Proof.
  intros Hp. simpl. rewrite Hp.
  destruct (dict_get p metadata_key) as [| | key | |]; simpl; try reflexivity.
  by destruct (bool_decide (key ∈ values)).
Qed.

Lemma collect_hits_entries metadata_key values hits :
  ∀ acc output,
    collect_hits metadata_key values hits acc = Returned output →
    ∀ key entry,
      output !! key = Some entry →
      acc !! key = Some entry
      ∨ (key ∈ values
         ∧ ∃ hit p,
             hit ∈ hits ∧ payload hit = Some p
             ∧ p !! metadata_key = Some (PyStr key)
             ∧ entry = {| entry_id := id hit;
                          modified := dict_get p "modified" |}).
Proof.
  induction hits as [|hit rest IH]; intros acc output Hrun key entry Hlook.
  - simpl in Hrun. injection Hrun as <-. by left.
  - destruct (payload hit) as [p|] eqn:Hp; [|simpl in Hrun; by rewrite Hp in Hrun].
    rewrite (collect_hits_cons _ _ _ _ _ p Hp) in Hrun.
    destruct (IH _ _ Hrun key entry Hlook) as [Hacc | (Hin & h & p' & Hh & ?)].
    2: { right. split; [done |]. exists h, p'. split; [by apply list_elem_of_further | done]. }
    destruct (dict_get p metadata_key) as [| | s | |] eqn:Hget; try by left.
    destruct (bool_decide (s ∈ values)) eqn:Hmem; [|by left].
    apply bool_decide_eq_true_1 in Hmem.
    destruct (decide (s = key)) as [-> | Hne].
    + rewrite lookup_insert_eq in Hacc. injection Hacc as <-.
      right. split; [done |]. exists hit, p.
      split; [apply list_elem_of_here |]. split; [done |].
      split; [by apply dict_get_str | done].
    + rewrite lookup_insert_ne in Hacc by done. by left.
Qed.

Lemma collect_hits_size metadata_key values hits :
  ∀ acc output,
    collect_hits metadata_key values hits acc = Returned output →
    (size output ≤ size acc + length hits)%nat.
Proof.
  induction hits as [|hit rest IH]; intros acc output Hrun.
  - simpl in Hrun. injection Hrun as <-. simpl. lia.
  - destruct (payload hit) as [p|] eqn:Hp; [|simpl in Hrun; by rewrite Hp in Hrun].
    rewrite (collect_hits_cons _ _ _ _ _ p Hp) in Hrun.
    apply IH in Hrun. simpl.
    destruct (dict_get p metadata_key) as [| | s | |]; try lia.
    destruct (bool_decide (s ∈ values)); [|lia].
    rewrite map_size_insert in Hrun.
    destruct (acc !! s); simpl in Hrun; lia.
Qed.

Lemma collect_hits_returns metadata_key values hits :
  Forall (λ hit, is_Some (payload hit)) hits →
  ∀ acc, ∃ output, collect_hits metadata_key values hits acc = Returned output.
Proof.
  induction 1 as [|hit rest [p Hp] _ IH]; intros acc.
  - by exists acc.
  - rewrite (collect_hits_cons _ _ _ _ _ p Hp). apply IH.
Qed.

Lemma collect_hits_raises metadata_key values hits :
  ∀ acc e,
    collect_hits metadata_key values hits acc = Raised e →
    ∃ what, e = AttributeError what.
Proof.
  induction hits as [|hit rest IH]; intros acc e Hrun.
  - discriminate.
  - destruct (payload hit) as [p|] eqn:Hp.
    + rewrite (collect_hits_cons _ _ _ _ _ p Hp) in Hrun. by eapply IH.
    + simpl in Hrun. rewrite Hp in Hrun. injection Hrun as <-. eauto.
Qed.

Lemma collect_hits_app metadata_key values before after acc :
  collect_hits metadata_key values (before ++ after) acc
  = (let! seen := collect_hits metadata_key values before acc in
     collect_hits metadata_key values after seen)%py.
Proof.
  revert acc. induction before as [|hit rest IH]; intros acc; [reflexivity |].
  destruct (payload hit) as [p|] eqn:Hp.
  - rewrite <- app_comm_cons, !(collect_hits_cons _ _ _ _ _ p Hp). apply IH.
  - simpl. by rewrite Hp.
Qed.

(** Hits that do not carry [value] leave its entry as it was. *)
Lemma collect_hits_untouched metadata_key values hits value :
  Forall (λ hit, ∀ p, payload hit = Some p →
                      p !! metadata_key ≠ Some (PyStr value)) hits →
  ∀ acc output,
    collect_hits metadata_key values hits acc = Returned output →
    output !! value = acc !! value.
Proof.
  induction 1 as [|hit rest Hhit _ IH]; intros acc output Hrun.
  - simpl in Hrun. by injection Hrun as <-.
  - destruct (payload hit) as [p|] eqn:Hp; [|simpl in Hrun; by rewrite Hp in Hrun].
    rewrite (collect_hits_cons _ _ _ _ _ p Hp) in Hrun.
    rewrite (IH _ _ Hrun).
    destruct (dict_get p metadata_key) as [| | s | |] eqn:Hget; try done.
    destruct (bool_decide (s ∈ values)); [|done].
    apply lookup_insert_ne. intros ->.
    apply dict_get_str in Hget. by apply (Hhit p).
Qed.

Lemma collect_hits_keys metadata_key values hits value :
  ∀ acc output,
    collect_hits metadata_key values hits acc = Returned output →
    is_Some (output !! value)
    ↔ is_Some (acc !! value)
      ∨ (value ∈ values
         ∧ ∃ hit p, hit ∈ hits ∧ payload hit = Some p
                    ∧ p !! metadata_key = Some (PyStr value)).
Proof.
  induction hits as [|hit rest IH]; intros acc output Hrun.
  - simpl in Hrun. injection Hrun as <-. split; [by left |].
    intros [? | (_ & h & p & Hin & _)]; [done | by apply elem_of_nil in Hin].
  - destruct (payload hit) as [p|] eqn:Hp; [|simpl in Hrun; by rewrite Hp in Hrun].
    rewrite (collect_hits_cons _ _ _ _ _ p Hp) in Hrun.
    rewrite (IH _ _ Hrun). clear IH Hrun. split.
    + intros [Hacc | (Hin & h & p' & Hh & Hrest)].
      2: { right. split; [done |]. exists h, p'.
           split; [by apply list_elem_of_further | done]. }
      destruct (dict_get p metadata_key) as [| | s | |] eqn:Hget;
        try by left.
      destruct (bool_decide (s ∈ values)) eqn:Hmem; [|by left].
      apply bool_decide_eq_true_1 in Hmem.
      destruct (decide (s = value)) as [-> | Hne].
      * right. split; [done |]. exists hit, p.
        split; [apply list_elem_of_here |]. split; [done |].
        by apply dict_get_str.
      * rewrite lookup_insert_ne in Hacc by done. by left.
    + intros [Hacc | (Hin & h & p' & Hh & Hp' & Hval)].
      * left. destruct (dict_get p metadata_key) as [| | s | |]; try done.
        destruct (bool_decide (s ∈ values)); [|done].
        destruct (decide (s = value)) as [-> | Hne].
        -- rewrite lookup_insert_eq. eauto.
        -- by rewrite lookup_insert_ne.
      * apply elem_of_cons in Hh as [-> | Hh].
        -- left. assert (p' = p) as -> by congruence.
           apply dict_get_str in Hval. rewrite Hval.
           rewrite bool_decide_eq_true_2 by done.
           rewrite lookup_insert_eq. eauto.
        -- right. split; [done |]. by exists h, p'.
Qed.

Lemma collect_hits_outcome metadata_key values hits :
  ∀ acc,
    (∃ output, collect_hits metadata_key values hits acc = Returned output)
    ∧ Forall (λ hit, is_Some (payload hit)) hits
    ∨ collect_hits metadata_key values hits acc
      = Raised (AttributeError "'NoneType' object has no attribute 'get'")
      ∧ Exists (λ hit, payload hit = None) hits.
Proof.
  induction hits as [|hit rest IH]; intros acc.
  - left. split; [by exists acc | constructor].
  - destruct (payload hit) as [p|] eqn:Hp.
    + rewrite (collect_hits_cons _ _ _ _ _ p Hp).
      destruct (IH (match dict_get p metadata_key with
                    | PyStr key =>
                        if bool_decide (key ∈ values) then
                          <[key := {| entry_id := id hit;
                                      modified := dict_get p "modified" |}]> acc
                        else acc
                    | _ => acc
                    end)) as [[Hout Hall] | [Hraise Hex]].
      * left. split; [done |]. constructor; [by rewrite Hp | done].
      * right. split; [done |]. by apply Exists_cons_tl.
    + right. simpl. rewrite Hp. split; [done |]. by apply Exists_cons_hd.
Qed.

Lemma size_list_to_set_le (l : list string) :
  (size (list_to_set l : gset string) ≤ length l)%nat.
Proof.
  induction l as [|x l IH]; [by rewrite list_to_set_nil, size_empty |].
  rewrite list_to_set_cons, size_union_alt, size_singleton. simpl.
  assert (Hsub : (size (list_to_set l ∖ {[x]} : gset string)
                  ≤ size (list_to_set l : gset string))%nat).
  { apply subseteq_size. apply subseteq_difference_l. reflexivity. }
  lia.
Qed.

(** ** The stateful operations, call by call *)

Lemma setup_schema_not_initialised self user_id q :
  client self = None →
  setup_schema self user_id q
  = (Raised (DbException "Error: Qdrant client not initialised"), q).
Proof. intros H. unfold setup_schema. rewrite H. reflexivity. Qed.

(** With a client, [setup_schema] is a listing, then possibly a creation;
    either call may raise. *)
Lemma setup_schema_run self c user_id q :
  client self = Some c →
  setup_schema self user_id q
  = match fails GetCollections q with
    | Some what => (Raised (ClientError what), logged GetCollections q)
    | None =>
        if decide (get_collection_name user_id ∈ name <$> collections q)
        then (Returned tt, logged GetCollections q)
        else
          match fails (CreateCollection (user_collection user_id))
                  (logged GetCollections q) with
          | Some what =>
              (Raised (ClientError what),
               logged (CreateCollection (user_collection user_id))
                 (logged GetCollections q))
          | None =>
              (Returned tt,
               {| collections := collections q ++ [user_collection user_id];
                  calls := calls q
                           ++ [GetCollections;
                               CreateCollection (user_collection user_id)] |})
          end
    end.
Proof.
  intros Hc. unfold setup_schema. rewrite Hc.
  unfold bind, client_get_collections, client_create_collection, client_call.
  destruct (fails GetCollections q) as [what|]; [reflexivity |].
  case_decide as Hin.
  - rewrite bool_decide_eq_true_2 by done. reflexivity.
  - rewrite bool_decide_eq_false_2 by done.
    fold (user_collection user_id).
    destruct (fails (CreateCollection (user_collection user_id))
                (logged GetCollections q)) as [what|]; [reflexivity |].
    simpl. rewrite bool_decide_eq_false_2 by done.
    rewrite <- app_assoc. reflexivity.
Qed.

Lemma setup_schema_present self c user_id q :
  client self = Some c →
  get_collection_name user_id ∈ name <$> collections q →
  answered GetCollections q →
  setup_schema self user_id q = (Returned tt, logged GetCollections q).
Proof.
  intros Hc Hin Hlist. rewrite (setup_schema_run self c user_id q Hc).
  rewrite Hlist. by rewrite decide_True.
Qed.

Lemma setup_schema_absent self c user_id q :
  client self = Some c →
  get_collection_name user_id ∉ name <$> collections q →
  answered GetCollections q →
  answered (CreateCollection (user_collection user_id))
    (logged GetCollections q) →
  setup_schema self user_id q
  = (Returned tt,
     {| collections := collections q ++ [user_collection user_id];
        calls := calls q
                 ++ [GetCollections; CreateCollection (user_collection user_id)]
     |}).
Proof.
  intros Hc Hout Hlist Hcreate. rewrite (setup_schema_run self c user_id q Hc).
  rewrite Hlist. rewrite decide_False by done. by rewrite Hcreate.
Qed.

(** [setup_schema] returns exactly when the service answers its calls. *)
Lemma setup_schema_returns_iff self c user_id q :
  client self = Some c →
  (setup_schema self user_id q).1 = Returned tt
  ↔ setup_schema_answered user_id q.
Proof.
  intros Hc. rewrite (setup_schema_run self c user_id q Hc).
  unfold setup_schema_answered, answered.
  destruct (fails GetCollections q) as [what|].
  { simpl. split; [discriminate | intros [? _]; discriminate]. }
  case_decide as Hin.
  { simpl. split; [by auto | done]. }
  destruct (fails (CreateCollection (user_collection user_id))
              (logged GetCollections q)) as [what|]; simpl.
  - split; [discriminate | intros [_ [? | ?]]; [done | discriminate]].
  - split; [by auto | done].
Qed.

(** What a run of [setup_schema] that returned has done. *)
Lemma setup_schema_returned self c user_id q :
  client self = Some c →
  (setup_schema self user_id q).1 = Returned tt →
  get_collection_name user_id
  ∈ name <$> collections (setup_schema self user_id q).2
  ∧ collections (setup_schema self user_id q).2
    = (if decide (get_collection_name user_id ∈ name <$> collections q)
       then collections q
       else collections q ++ [user_collection user_id])
  ∧ calls (setup_schema self user_id q).2
    = calls q
      ++ (if decide (get_collection_name user_id ∈ name <$> collections q)
          then [GetCollections]
          else [GetCollections; CreateCollection (user_collection user_id)]).
Proof.
  intros Hc. rewrite (setup_schema_run self c user_id q Hc).
  destruct (fails GetCollections q) as [what|]; [discriminate |].
  case_decide as Hin; [done |].
  destruct (fails (CreateCollection (user_collection user_id))
              (logged GetCollections q)) as [what|]; [discriminate |].
  simpl. intros _. split; [|done].
  rewrite fmap_app. apply elem_of_app. right. apply list_elem_of_here.
Qed.

(** With a client, [setup_schema] returns or raises what the service
    raised, and nothing else. *)
Lemma setup_schema_outcome self c user_id q :
  client self = Some c →
  (setup_schema self user_id q).1 = Returned tt
  ∨ ∃ what call s,
      (setup_schema self user_id q).1 = Raised (ClientError what)
      ∧ fails call s = Some what.
Proof.
  intros Hc. rewrite (setup_schema_run self c user_id q Hc).
  destruct (fails GetCollections q) as [what|] eqn:Hlist.
  { right. by exists what, GetCollections, q. }
  case_decide as Hin; [by left |].
  destruct (fails (CreateCollection (user_collection user_id))
              (logged GetCollections q)) as [what|] eqn:Hcreate.
  - right. by exists what, (CreateCollection (user_collection user_id)),
             (logged GetCollections q).
  - by left.
Qed.

(** What any run of [setup_schema] does to the service. *)
Lemma setup_schema_state self user_id q :
  (collections (setup_schema self user_id q).2 = collections q
   ∨ (get_collection_name user_id ∉ name <$> collections q)
     ∧ collections (setup_schema self user_id q).2
       = collections q ++ [user_collection user_id])
  ∧ ∃ issued,
      calls (setup_schema self user_id q).2 = calls q ++ issued
      ∧ Forall (λ call, ∀ r, call ≠ Search r) issued.
Proof.
  destruct (client self) as [c|] eqn:Hc.
  2: { rewrite (setup_schema_not_initialised _ _ _ Hc). simpl.
       split; [by left |]. exists []. by rewrite app_nil_r. }
  rewrite (setup_schema_run self c user_id q Hc).
  destruct (fails GetCollections q) as [what|].
  { simpl. split; [by left |]. exists [GetCollections].
    split; [done |]. repeat constructor; discriminate. }
  case_decide as Hin.
  { simpl. split; [by left |]. exists [GetCollections].
    split; [done |]. repeat constructor; discriminate. }
  destruct (fails (CreateCollection (user_collection user_id))
              (logged GetCollections q)) as [what|]; simpl.
  - split; [by left |].
    exists [GetCollections; CreateCollection (user_collection user_id)].
    split; [by rewrite <- app_assoc |]. repeat constructor; discriminate.
  - split; [by right |].
    exists [GetCollections; CreateCollection (user_collection user_id)].
    split; [done |]. repeat constructor; discriminate.
Qed.

Lemma get_users_not_initialised self q :
  client self = None →
  get_users self q
  = (Raised (DbException "Error: Qdrant client not initialised"), q).
Proof. intros H. unfold get_users. by rewrite H. Qed.

Lemma get_users_run self c q :
  client self = Some c →
  get_users self q
  = match fails GetCollections q with
    | Some what => (Raised (ClientError what), logged GetCollections q)
    | None =>
        (Returned ((λ coll, get_user_id_from_collection (name coll))
                     <$> collections q),
         logged GetCollections q)
    end.
Proof.
  intros H. unfold get_users. rewrite H.
  unfold bind, client_get_collections, client_call.
  by destruct (fails GetCollections q).
Qed.

(** [get_user_client] is [setup_schema], then the handle. *)
Lemma get_user_client_run self user_id embedding_ q :
  get_user_client self user_id embedding_ q
  = match (setup_schema self user_id q).1 with
    | Returned _ =>
        (Returned {| store_client := client self;
                     store_collection_name := get_collection_name user_id;
                     text_key := "text";
                     store_embedding := py_or (embedding self) embedding_ |},
         (setup_schema self user_id q).2)
    | Raised e => (Raised e, (setup_schema self user_id q).2)
    end.
Proof.
  unfold get_user_client, bind.
  by destruct (setup_schema self user_id q) as [[[]|e] q1].
Qed.

Lemma get_user_client_not_initialised self user_id embedding_ q :
  client self = None →
  get_user_client self user_id embedding_ q
  = (Raised (DbException "Error: Qdrant client not initialised"), q).
Proof.
  intros Hc. rewrite get_user_client_run.
  by rewrite (setup_schema_not_initialised _ _ _ Hc).
Qed.

Lemma get_objects_from_metadata_not_initialised self user_id key values q :
  client self = None →
  get_objects_from_metadata self user_id key values q
  = (Raised (DbException "Error: Qdrant client not initialised"), q).
Proof.
  intros H. unfold get_objects_from_metadata. by rewrite H.
Qed.

(** With a client, the lookup is [setup_schema], then one search, then the
    loop over its hits; the filter it builds is never refused. *)
Lemma get_objects_from_metadata_run self c user_id key values q :
  client self = Some c →
  get_objects_from_metadata self user_id key values q
  = match (setup_schema self user_id q).1 with
    | Raised e => (Raised e, (setup_schema self user_id q).2)
    | Returned _ =>
        match fails (Search (metadata_search user_id key values))
                (setup_schema self user_id q).2 with
        | Some what =>
            (Raised (ClientError what),
             logged (Search (metadata_search user_id key values))
               (setup_schema self user_id q).2)
        | None =>
            (collect_hits key values
               (search_backend (collections (setup_schema self user_id q).2)
                  (metadata_search user_id key values)) ∅,
             logged (Search (metadata_search user_id key values))
               (setup_schema self user_id q).2)
        end
    end.
Proof.
  intros Hc. unfold get_objects_from_metadata. rewrite Hc.
  unfold bind at 1.
  destruct (setup_schema self user_id q) as [[[]|e] q1]; [|reflexivity].
  simpl.
  change ([<["metadata_key":=PyStr key]> (<["values":=PyList (PyStr <$> values)]> ∅)])
    with [lookup_filter key values].
  rewrite get_metadata_filter_lookup_filter.
  unfold bind, lift, client_search, client_call.
  fold (metadata_search user_id key values).
  by destruct (fails (Search (metadata_search user_id key values)) q1).
Qed.

(** What a lookup that returned has gone through. *)
Lemma get_objects_from_metadata_returned self c user_id key values q output :
  client self = Some c →
  (get_objects_from_metadata self user_id key values q).1 = Returned output →
  (setup_schema self user_id q).1 = Returned tt
  ∧ answered (Search (metadata_search user_id key values))
      (setup_schema self user_id q).2
  ∧ collect_hits key values
      (search_backend (collections (setup_schema self user_id q).2)
         (metadata_search user_id key values)) ∅ = Returned output
  ∧ (get_objects_from_metadata self user_id key values q).2
    = logged (Search (metadata_search user_id key values))
        (setup_schema self user_id q).2.
Proof.
  intros Hc. rewrite (get_objects_from_metadata_run self c user_id key values q Hc).
  unfold answered.
  destruct (setup_schema self user_id q).1 as [[]|e]; [|discriminate].
  destruct (fails (Search (metadata_search user_id key values))
              (setup_schema self user_id q).2) as [what|]; [discriminate |].
  simpl. by intros ->.
Qed.

(** With the service answering, the lookup is the loop over the hits. *)
Lemma get_objects_from_metadata_answered self c user_id key values q :
  client self = Some c →
  (setup_schema self user_id q).1 = Returned tt →
  answered (Search (metadata_search user_id key values))
    (setup_schema self user_id q).2 →
  get_objects_from_metadata self user_id key values q
  = (collect_hits key values
       (search_backend (collections (setup_schema self user_id q).2)
          (metadata_search user_id key values)) ∅,
     logged (Search (metadata_search user_id key values))
       (setup_schema self user_id q).2).
Proof.
  intros Hc Hsetup Hsearch.
  rewrite (get_objects_from_metadata_run self c user_id key values q Hc).
  by rewrite Hsetup, Hsearch.
Qed.

(** What the other operations raise, with a client. *)
Lemma get_users_outcome self c q :
  client self = Some c →
  (∃ users, (get_users self q).1 = Returned users)
  ∨ ∃ what call s,
      (get_users self q).1 = Raised (ClientError what)
      ∧ fails call s = Some what.
Proof.
  intros Hc. rewrite (get_users_run self c q Hc).
  destruct (fails GetCollections q) as [what|] eqn:Hlist.
  - right. by exists what, GetCollections, q.
  - left. eauto.
Qed.

Lemma get_user_client_outcome self c user_id embedding_ q :
  client self = Some c →
  (∃ handle, (get_user_client self user_id embedding_ q).1 = Returned handle)
  ∨ ∃ what call s,
      (get_user_client self user_id embedding_ q).1
      = Raised (ClientError what)
      ∧ fails call s = Some what.
Proof.
  intros Hc. rewrite get_user_client_run.
  destruct (setup_schema_outcome self c user_id q Hc)
    as [-> | (what & call & s & -> & Hfails)].
  - left. eauto.
  - right. by exists what, call, s.
Qed.

Lemma get_objects_from_metadata_raised self c user_id key values q e :
  client self = Some c →
  (get_objects_from_metadata self user_id key values q).1 = Raised e →
  (∃ what call s, e = ClientError what ∧ fails call s = Some what)
  ∨ (e = AttributeError "'NoneType' object has no attribute 'get'"
     ∧ Exists (λ hit, payload hit = None)
         (search_backend (collections (setup_schema self user_id q).2)
            (metadata_search user_id key values))).
Proof.
  intros Hc.
  rewrite (get_objects_from_metadata_run self c user_id key values q Hc).
  destruct (setup_schema_outcome self c user_id q Hc)
    as [-> | (what & call & s & -> & Hfails)].
  2: { simpl. intros [= <-]. left. by exists what, call, s. }
  destruct (fails (Search (metadata_search user_id key values))
              (setup_schema self user_id q).2) as [what|] eqn:Hsearch.
  { simpl. intros [= <-]. left. eauto. }
  simpl. intros Hraise.
  destruct (collect_hits_outcome key values
              (search_backend (collections (setup_schema self user_id q).2)
                 (metadata_search user_id key values)) ∅)
    as [[[output Hout] _] | [Hloop Hex]]; [congruence |].
  right. split; [congruence | done].
Qed.

(** ** Properties of the stateful operations *)

(** C3.  With a client, [setup_schema] is idempotent.  When the user's
    collection is already among the service's collections, the only call is
    the listing and the collections stay as they are; otherwise, the service
    answering, exactly one collection is created, named for the user, of
    vector size 768 and Cosine distance.  After a run that returned, a
    second run makes the listing call only and leaves the collections as the
    first run left them. *)
Theorem setup_schema_idempotent self c user_id q :
  client self = Some c →
  let name_ := get_collection_name user_id in
  let once := (setup_schema self user_id q).2 in
  let twice := (setup_schema self user_id once).2 in
  (name_ ∈ name <$> collections q →
     collections once = collections q
     ∧ calls once = calls q ++ [GetCollections]
     ∧ (answered GetCollections q →
        setup_schema self user_id q = (Returned tt, once)))
  ∧ (name_ ∉ name <$> collections q →
     setup_schema_answered user_id q →
     ∃ created,
       setup_schema self user_id q = (Returned tt, once)
       ∧ collections once = collections q ++ [created]
       ∧ calls once = calls q ++ [GetCollections; CreateCollection created]
       ∧ name created = name_
       ∧ size_ (vectors_config created) = 768
       ∧ distance (vectors_config created) = COSINE)
  ∧ ((setup_schema self user_id q).1 = Returned tt →
     collections twice = collections once
     ∧ calls twice = calls once ++ [GetCollections]
     ∧ (answered GetCollections once →
        (setup_schema self user_id once).1 = Returned tt)).
Proof.
  intros Hc name_ once twice. split; [|split].
  - intros Hin. subst once.
    rewrite (setup_schema_run self c user_id q Hc).
    rewrite decide_True by done. unfold answered.
    destruct (fails GetCollections q) as [what|]; simpl;
      (split; [done |]; split; [done |]); [discriminate | done].
  - intros Hout [Hlist [Hin | Hcreate]]; [done |].
    exists (user_collection user_id). subst once.
    by rewrite (setup_schema_absent self c user_id q Hc Hout Hlist Hcreate).
  - intros Hreturned.
    destruct (setup_schema_returned self c user_id q Hc Hreturned)
      as (Hafter & _ & _).
    fold once in Hafter. subst twice.
    rewrite (setup_schema_run self c user_id once Hc).
    rewrite decide_True by done. unfold answered.
    destruct (fails GetCollections once) as [what|]; simpl;
      (split; [done |]; split; [done |]); [discriminate | done].
Qed.

(** C6.  When collection names read back to the user they were made for
    and [setup_schema] has returned for a user, [get_users], its listing
    answered, returns a list that contains that user and has one user
    identifier for each collection of the service, in the same order. *)
Theorem get_users_after_setup_schema self c user_id q q1 :
  client self = Some c →
  naming_round_trips get_collection_name get_user_id_from_collection →
  setup_schema self user_id q = (Returned tt, q1) →
  answered GetCollections q1 →
  ∃ users q2,
    get_users self q1 = (Returned users, q2)
    ∧ user_id ∈ users
    ∧ Forall2 (λ coll user, user = get_user_id_from_collection (name coll))
        (collections q1) users.
Proof.
  intros Hc Hround Hsetup Hlist.
  assert (Hreturned : (setup_schema self user_id q).1 = Returned tt)
    by by rewrite Hsetup.
  destruct (setup_schema_returned self c user_id q Hc Hreturned)
    as (Hin & _ & _).
  rewrite Hsetup in Hin. simpl in Hin.
  rewrite (get_users_run self c q1 Hc). rewrite Hlist.
  do 2 eexists. split; [reflexivity |]. split.
  - apply list_elem_of_fmap in Hin as [coll [Hname Hcoll]].
    apply list_elem_of_fmap. exists coll. split; [|done].
    rewrite <- Hname. symmetry. apply Hround.
  - apply Forall2_fmap_r. apply Forall_Forall2_diag. by apply Forall_forall.
Qed.

(** C1, as the code has it.  When the instance has an embedding of its own,
    the handle of [get_user_client] carries that one, whatever embedding the
    request passes: [self.embedding or embedding] looks at the instance
    first. *)
Theorem get_user_client_prefers_instance_embedding c user_id q :
  let self :=
    {| client := Some c; embedding := Some (EmbeddingsObject 1) |} in
  setup_schema_answered user_id q →
  ∃ handle q1,
    get_user_client self user_id (Some (EmbeddingsObject 2)) q
    = (Returned handle, q1)
    ∧ store_embedding handle = Some (EmbeddingsObject 1)
    ∧ store_embedding handle ≠ Some (EmbeddingsObject 2).
Proof.
  intros self Hanswered.
  apply (setup_schema_returns_iff self c user_id q eq_refl) in Hanswered.
  rewrite get_user_client_run, Hanswered.
  do 2 eexists. split; [reflexivity |]. simpl.
  split; [reflexivity | discriminate].
Qed.

(** C7.  The constructor raises [DbException] exactly when building the
    client raises, and raises nothing else; when the client is built, the
    instance holds that client and the given embedding. *)
Theorem init_raises_iff_client_raises embedding_ :
  let made := QdrantClient_new (environ !! "QDRANT_URL")
                (environ !! "QDRANT_APIKEY") in
  ((∃ message, __init__ embedding_ = Raised (DbException message))
   ↔ ∃ e, made = Raised e)
  ∧ (∀ e, __init__ embedding_ = Raised e →
          e = DbException "Error: Qdrant connection error")
  ∧ (∀ client_, made = Returned client_ →
       ∃ self, __init__ embedding_ = Returned self
               ∧ client self = Some client_
               ∧ embedding self = embedding_).
Proof.
  intros made. unfold __init__, getenv. fold made.
  destruct made as [client_ | e]; split; [| split | | split].
  - split; intros [x Hx]; discriminate.
  - discriminate.
  - intros ? [= <-]. eexists. done.
  - split; eauto.
  - by intros ? [= <-].
  - discriminate.
Qed.

(** C2.  With a client, a service that answers the calls of the lookup and
    honours the limit of a search, [get_objects_from_metadata] asks for
    exactly one search, the last call it makes: without a query vector and
    with limit 100, on the user's collection, filtered by the exact-match
    filter of the key.  It returns a mapping as soon as every hit carries a
    payload.  The mapping it returns has at most 100 entries; each is under
    a key that is one of the requested values and holds the id and the
    ['modified'] payload field of a hit whose payload has that value under
    the metadata key; and every requested value that a hit carries has its
    entry, that of the last such hit. *)
Theorem get_objects_from_metadata_result self c user_id key values q :
  client self = Some c →
  honours_limit search_backend →
  let request := metadata_search user_id key values in
  let run := get_objects_from_metadata self user_id key values q in
  setup_schema_answered user_id q →
  answered (Search request) (setup_schema self user_id q).2 →
  ∃ q1 issued,
    setup_schema self user_id q = (Returned tt, q1)
    ∧ calls run.2 = calls q ++ issued ++ [Search request]
    ∧ Forall (λ call, ∀ r, call ≠ Search r) issued
    ∧ query_vector request = None
    ∧ limit request = 100%nat
    ∧ collection_name request = get_collection_name user_id
    ∧ query_filter request
      = exact_match_filter (PyStr key) (PyList (PyStr <$> values))
    ∧ let hits := search_backend (collections q1) request in
      (Forall (λ hit, is_Some (payload hit)) hits →
         ∃ output, run.1 = Returned output)
      ∧ ∀ output,
          run.1 = Returned output →
          (size output ≤ 100)%nat
          ∧ (∀ value entry,
               output !! value = Some entry →
               value ∈ values
               ∧ ∃ hit p,
                   hit ∈ hits ∧ payload hit = Some p
                   ∧ p !! key = Some (PyStr value)
                   ∧ entry = {| entry_id := id hit;
                                modified := dict_get p "modified" |})
          ∧ ∀ before hit after p value,
              hits = before ++ hit :: after →
              payload hit = Some p →
              p !! key = Some (PyStr value) →
              value ∈ values →
              Forall (λ later, ∀ p', payload later = Some p' →
                                     p' !! key ≠ Some (PyStr value)) after →
              output !! value
              = Some {| entry_id := id hit;
                        modified := dict_get p "modified" |}.
Proof.
  intros Hc Hlimit request run Hsetup Hsearch.
  apply (setup_schema_returns_iff self c user_id q Hc) in Hsetup.
  destruct (setup_schema_state self user_id q)
    as [_ (issued & Hcalls & Hissued)].
  exists (setup_schema self user_id q).2, issued.
  subst run.
  rewrite (get_objects_from_metadata_answered self c user_id key values q
             Hc Hsetup Hsearch).
  fold request. simpl.
  split; [by rewrite <- Hsetup; destruct (setup_schema self user_id q) |].
  split; [by rewrite Hcalls, app_assoc |].
  do 5 (split; [done |]). split.
  - intros Hpayloads. by apply collect_hits_returns.
  - intros output Hout. split; [|split].
    + pose proof (collect_hits_size _ _ _ _ _ Hout) as Hsize.
      rewrite map_size_empty in Hsize.
      pose proof (Hlimit (collections (setup_schema self user_id q).2)
                    request) as Hcap.
      change (limit request) with 100%nat in Hcap. lia.
    + intros value entry Hlook.
      destruct (collect_hits_entries _ _ _ _ _ Hout value entry Hlook)
        as [Hempty | Hfound]; [by rewrite lookup_empty in Hempty | done].
    + intros before hit after p value Hhits Hp Hval Hin Hafter.
      rewrite Hhits, collect_hits_app in Hout.
      destruct (collect_hits key values before ∅) as [seen | e];
        [|discriminate].
      unfold obind in Hout. rewrite (collect_hits_cons _ _ _ _ _ p Hp) in Hout.
      apply dict_get_str in Hval. rewrite Hval in Hout.
      rewrite bool_decide_eq_true_2 in Hout by done.
      rewrite (collect_hits_untouched _ _ _ value Hafter _ _ Hout).
      apply lookup_insert_eq.
Qed.

(** C9.  The filter list that [get_objects_from_metadata] builds has both
    required keys, [get_metadata_filter] turns it into a dictionary, and no
    run of [get_objects_from_metadata] raises the metadata filter error. *)
Theorem metadata_filter_error_unreachable self user_id key values q :
  well_formed (lookup_filter key values)
  ∧ (∃ query_filter,
       get_metadata_filter [lookup_filter key values]
       = Returned (Some query_filter))
  ∧ (get_objects_from_metadata self user_id key values q).1
    ≠ Raised (DbException "Error: Qdrant metadata filter error").
Proof.
  split; [|split].
  - unfold well_formed, lookup_filter. split.
    + rewrite lookup_insert_eq. eauto.
    + rewrite lookup_insert_ne by done. rewrite lookup_insert_eq. eauto.
  - rewrite get_metadata_filter_lookup_filter. eauto.
  - destruct (client self) as [c|] eqn:Hc.
    + intros Hraise.
      apply (get_objects_from_metadata_raised self c) in Hraise
        as [(what & call & s & Hwhat & _) | [Hwhat _]]; [discriminate.. | done].
    + rewrite (get_objects_from_metadata_not_initialised _ _ _ _ _ Hc). simpl.
      intros [= Heq].
Qed.

(** C8.  A [DbException] that leaves the adapter is the connection error of
    the constructor, raised when building the client raised, or the
    client-not-initialised error of an operation run without a client;
    [get_metadata_filter] raises none, and the metadata filter error of
    [get_objects_from_metadata] never comes out. *)
Theorem DbException_only_from_connection_or_guard op self q message :
  raised_by op self q = Some (DbException message) →
  match op with
  | Construct _ =>
      message = "Error: Qdrant connection error"
      ∧ ∃ e, QdrantClient_new (environ !! "QDRANT_URL")
               (environ !! "QDRANT_APIKEY") = Raised e
  | GetMetadataFilter _ => False
  | GetUsers | SetupSchema _ | GetUserClient _ _
  | GetObjectsFromMetadata _ _ _ =>
      message = "Error: Qdrant client not initialised"
      ∧ client self = None
  end.
Proof.
  destruct op as [emb | | user_id | user_id emb | filters | user_id key values];
    simpl; intros Hraised.
  - unfold __init__, getenv in Hraised.
    destruct (QdrantClient_new _ _) as [made | e]; [discriminate |].
    injection Hraised as <-. eauto.
  - destruct (client self) as [c|] eqn:Hc.
    + destruct (get_users_outcome self c q Hc)
        as [[users Hrun] | (what & call & s & Hrun & _)];
        rewrite Hrun in Hraised; discriminate.
    + rewrite (get_users_not_initialised self q Hc) in Hraised.
      injection Hraised as <-. done.
  - destruct (client self) as [c|] eqn:Hc.
    + destruct (setup_schema_outcome self c user_id q Hc)
        as [Hrun | (what & call & s & Hrun & _)];
        rewrite Hrun in Hraised; discriminate.
    + rewrite (setup_schema_not_initialised _ _ _ Hc) in Hraised.
      injection Hraised as <-. done.
  - destruct (client self) as [c|] eqn:Hc.
    + destruct (get_user_client_outcome self c user_id emb q Hc)
        as [[handle Hrun] | (what & call & s & Hrun & _)];
        rewrite Hrun in Hraised; discriminate.
    + rewrite (get_user_client_not_initialised _ _ _ _ Hc) in Hraised.
      injection Hraised as <-. done.
  - destruct (get_metadata_filter_returns filters) as [result Hrun].
    rewrite Hrun in Hraised. discriminate.
  - destruct (client self) as [c|] eqn:Hc.
    + destruct (get_objects_from_metadata self user_id key values q).1
        as [output | e] eqn:Hrun; [discriminate |].
      injection Hraised as ->.
      apply (get_objects_from_metadata_raised self c) in Hrun
        as [(what & call & s & Hwhat & _) | [Hwhat _]]; [discriminate.. | done].
    + rewrite (get_objects_from_metadata_not_initialised _ _ _ _ _ Hc)
        in Hraised.
      injection Hraised as <-. done.
Qed.

(** ** Further properties of get_objects_from_metadata *)

(** X2.  With a client, the keys of the mapping returned by
    [get_objects_from_metadata] are exactly the requested values that some
    hit carries, as a string, under the metadata key: hits with another
    value, with a value that is not a string, or without the key are left
    out, and no requested value that a hit carries is lost. *)
Theorem get_objects_from_metadata_keys self c user_id key values q output :
  client self = Some c →
  (get_objects_from_metadata self user_id key values q).1 = Returned output →
  let hits :=
    search_backend (collections (setup_schema self user_id q).2)
      (metadata_search user_id key values) in
  ∀ value,
    is_Some (output !! value)
    ↔ value ∈ values
      ∧ ∃ hit p, hit ∈ hits ∧ payload hit = Some p
                 ∧ p !! key = Some (PyStr value).
Proof.
  intros Hc Hrun hits value.
  destruct (get_objects_from_metadata_returned self c user_id key values q
              output Hc Hrun) as (_ & _ & Hloop & _).
  rewrite (collect_hits_keys _ _ _ value _ _ Hloop).
  rewrite lookup_empty. split; [|by right].
  intros [[? Hnone] | Hfound]; [discriminate | done].
Qed.

(** X3.  When several hits carry the same requested value, the entry of the
    returned mapping is that of the last of them in the order of the search
    result: a later hit overwrites an earlier one. *)
Theorem get_objects_from_metadata_last_hit_wins
    self c user_id key values q output before hit after p value :
  client self = Some c →
  (get_objects_from_metadata self user_id key values q).1 = Returned output →
  search_backend (collections (setup_schema self user_id q).2)
    (metadata_search user_id key values)
  = before ++ hit :: after →
  payload hit = Some p →
  p !! key = Some (PyStr value) →
  value ∈ values →
  Forall (λ later, ∀ p', payload later = Some p' →
                         p' !! key ≠ Some (PyStr value)) after →
  output !! value
  = Some {| entry_id := id hit; modified := dict_get p "modified" |}.
Proof.
  intros Hc Hrun Hhits Hp Hval Hin Hafter.
  destruct (get_objects_from_metadata_returned self c user_id key values q
              output Hc Hrun) as (_ & _ & Hloop & _).
  rewrite Hhits, collect_hits_app in Hloop.
  destruct (collect_hits key values before ∅) as [seen | e]; [|discriminate].
  unfold obind in Hloop. rewrite (collect_hits_cons _ _ _ _ _ p Hp) in Hloop.
  apply dict_get_str in Hval. rewrite Hval in Hloop.
  rewrite bool_decide_eq_true_2 in Hloop by done.
  rewrite (collect_hits_untouched _ _ _ value Hafter _ _ Hloop).
  apply lookup_insert_eq.
Qed.

(** X4.  With a client, the returned mapping has at most as many entries as
    values were requested; for an empty list of values it is empty, although
    the collection is still set up and the search still made. *)
Theorem get_objects_from_metadata_bounded_by_values
    self c user_id key values q output :
  client self = Some c →
  (get_objects_from_metadata self user_id key values q).1 = Returned output →
  (size output ≤ length values)%nat
  ∧ (values = [] →
     output = ∅
     ∧ Search (metadata_search user_id key [])
       ∈ calls (get_objects_from_metadata self user_id key values q).2).
Proof.
  intros Hc Hrun.
  destruct (get_objects_from_metadata_returned self c user_id key values q
              output Hc Hrun) as (_ & _ & Hloop & Hstate).
  assert (Hsize : (size output ≤ length values)%nat).
  { rewrite <- size_dom.
    etransitivity; [|apply (size_list_to_set_le values)].
    apply subseteq_size. intros value Hdom.
    apply elem_of_dom in Hdom. apply elem_of_list_to_set.
    apply (collect_hits_keys _ _ _ value _ _ Hloop) in Hdom
      as [[? Hnone] | [? _]]; [|done].
    by rewrite lookup_empty in Hnone. }
  split; [done |]. intros ->. split.
  - apply map_size_empty_inv. simpl in Hsize. lia.
  - rewrite Hstate. simpl. apply elem_of_app. right. apply list_elem_of_here.
Qed.

(** X5.  [get_objects_from_metadata] raises in these cases only: without a
    client, the client-not-initialised [DbException]; with a client, what
    [setup_schema] raised when it raised, else what the search raised when
    the service did not answer it, else an [AttributeError] when some hit of
    the search has no payload. *)
Theorem get_objects_from_metadata_raises self user_id key values q e :
  let request := metadata_search user_id key values in
  let q1 := (setup_schema self user_id q).2 in
  (get_objects_from_metadata self user_id key values q).1 = Raised e
  ↔ (client self = None
     ∧ e = DbException "Error: Qdrant client not initialised")
    ∨ (is_Some (client self)
       ∧ (setup_schema self user_id q).1 = Raised e)
    ∨ (is_Some (client self)
       ∧ (setup_schema self user_id q).1 = Returned tt
       ∧ ∃ what, fails (Search request) q1 = Some what
                 ∧ e = ClientError what)
    ∨ (is_Some (client self)
       ∧ (setup_schema self user_id q).1 = Returned tt
       ∧ answered (Search request) q1
       ∧ e = AttributeError "'NoneType' object has no attribute 'get'"
       ∧ Exists (λ hit, payload hit = None)
           (search_backend (collections q1) request)).
Proof.
  intros request q1. destruct (client self) as [c|] eqn:Hc.
  - rewrite (get_objects_from_metadata_run self c user_id key values q Hc).
    fold request q1. unfold answered.
    destruct (setup_schema self user_id q).1 as [[]|e0] eqn:Hsetup.
    2: { simpl. split.
         - intros [= <-]. right. left. eauto.
         - intros [[? _] | [[_ Hr] | [(_ & ? & _) | (_ & ? & _)]]];
             try discriminate. by injection Hr as ->. }
    destruct (fails (Search request) q1) as [what|] eqn:Hsearch.
    { simpl. split.
      - intros [= <-]. right. right. left. eauto.
      - intros [[? _] | [[_ ?] | [(_ & _ & w & Hw & ->)
                                 | (_ & _ & ? & _)]]];
          try discriminate. by injection Hw as ->. }
    simpl.
    destruct (collect_hits_outcome key values
                (search_backend (collections q1) request) ∅)
      as [[[output Hout] Hall] | [Hraise Hex]].
    + rewrite Hout. split; [discriminate |].
      intros [[? _] | [[_ ?] | [(_ & _ & w & ? & _)
                               | (_ & _ & _ & _ & Hex)]]];
        try discriminate.
      apply Exists_exists in Hex as (hit & Hin & Hnone).
      rewrite Forall_forall in Hall. destruct (Hall hit Hin) as [p Hp].
      congruence.
    + rewrite Hraise. split.
      * intros [= <-]. right. right. right. eauto 10.
      * intros [[? _] | [[_ ?] | [(_ & _ & w & ? & _)
                                 | (_ & _ & _ & -> & _)]]];
          try discriminate. done.
  - rewrite (get_objects_from_metadata_not_initialised _ _ _ _ _ Hc). simpl.
    split.
    + intros [= <-]. by left.
    + intros [[_ ->] | [([? ?] & _) | [([? ?] & _) | ([? ?] & _)]]];
        [done | discriminate..].
Qed.

(** ** Further properties of the stateful operations *)

(** What any operation does to the service: nothing, or one more call, or
    the calls of [setup_schema], with at most the user's collection added
    under a name that was free. *)
Lemma state_after_grows op self q :
  (collections (state_after op self q) = collections q
   ∨ ∃ user_id,
       (get_collection_name user_id ∉ name <$> collections q)
       ∧ collections (state_after op self q)
         = collections q ++ [user_collection user_id])
  ∧ calls q `prefix_of` calls (state_after op self q).
Proof.
  assert (Hsetup : ∀ user_id,
    (collections (setup_schema self user_id q).2 = collections q
     ∨ ∃ u, (get_collection_name u ∉ name <$> collections q)
            ∧ collections (setup_schema self user_id q).2
              = collections q ++ [user_collection u])
    ∧ calls q `prefix_of` calls (setup_schema self user_id q).2).
  { intros user_id.
    destruct (setup_schema_state self user_id q)
      as [[Hsame | [Hfree Hadded]] (issued & Hcalls & _)].
    - split; [by left | by exists issued].
    - split; [right; eauto | by exists issued]. }
  destruct op as [emb | | user_id | user_id emb | filters | user_id key values];
    simpl.
  - split; [by left | done].
  - destruct (client self) as [c|] eqn:Hc.
    + rewrite (get_users_run self c q Hc).
      destruct (fails GetCollections q); simpl;
        (split; [by left | by apply prefix_app_r]).
    + rewrite (get_users_not_initialised self q Hc). simpl.
      split; [by left | done].
  - apply Hsetup.
  - rewrite get_user_client_run.
    destruct (setup_schema self user_id q).1 eqn:Hrun; apply Hsetup.
  - split; [by left | done].
  - destruct (client self) as [c|] eqn:Hc.
    + rewrite (get_objects_from_metadata_run self c user_id key values q Hc).
      destruct (Hsetup user_id) as [Hcoll Hcalls].
      destruct (setup_schema self user_id q).1; [|done].
      destruct (fails _ _); simpl; (split; [done | by apply prefix_app_r]).
    + rewrite (get_objects_from_metadata_not_initialised _ _ _ _ _ Hc). simpl.
      split; [by left | done].
Qed.

Lemma collections_prefix_after_operation op self q :
  collections q `prefix_of` collections (state_after op self q).
Proof.
  destruct (state_after_grows op self q)
    as [[Hsame | (user_id & _ & Hadded)] _].
  - by rewrite Hsame.
  - rewrite Hadded. by apply prefix_app_r.
Qed.

(** X6.  Without a client, [get_users], [setup_schema], [get_user_client]
    and [get_objects_from_metadata] all raise the client-not-initialised
    [DbException] before anything is asked of the service: no call is made
    and the service is left as it was. *)
Theorem without_client_nothing_is_called
    self user_id embedding_ key values q :
  client self = None →
  get_users self q
  = (Raised (DbException "Error: Qdrant client not initialised"), q)
  ∧ setup_schema self user_id q
    = (Raised (DbException "Error: Qdrant client not initialised"), q)
  ∧ get_user_client self user_id embedding_ q
    = (Raised (DbException "Error: Qdrant client not initialised"), q)
  ∧ get_objects_from_metadata self user_id key values q
    = (Raised (DbException "Error: Qdrant client not initialised"), q).
Proof.
  intros Hc. split; [|split; [|split]].
  - by apply get_users_not_initialised.
  - by apply setup_schema_not_initialised.
  - by apply get_user_client_not_initialised.
  - by apply get_objects_from_metadata_not_initialised.
Qed.

(** X7.  No operation of the adapter, returning or raising, removes or
    changes a collection or forgets a call: the collections and the calls
    before are a prefix of those after, at most one collection is added, and
    collection names that were distinct stay distinct. *)
Theorem operations_keep_collections op self q :
  collections q `prefix_of` collections (state_after op self q)
  ∧ calls q `prefix_of` calls (state_after op self q)
  ∧ (length (collections (state_after op self q))
     ≤ S (length (collections q)))%nat
  ∧ (NoDup (name <$> collections q) →
     NoDup (name <$> collections (state_after op self q))).
Proof.
  destruct (state_after_grows op self q)
    as [[Hsame | (user_id & Hfree & Hadded)] Hcalls].
  - rewrite Hsame. split; [done |]. split; [done |]. split; [lia | done].
  - rewrite Hadded. split; [by apply prefix_app_r |]. split; [done |].
    split; [rewrite length_app; simpl; lia |].
    intros Hnodup. rewrite fmap_app. apply NoDup_app.
    split; [done |]. split; [|apply NoDup_singleton].
    intros n Hn Hin. apply list_elem_of_singleton in Hin. by subst n.
Qed.

Lemma init_returns_client embedding_ self :
  __init__ embedding_ = Returned self →
  (∃ c, client self = Some c) ∧ embedding self = embedding_.
Proof.
  unfold __init__. destruct (QdrantClient_new _ _) as [made | e];
    [|discriminate].
  intros [= <-]. simpl. eauto.
Qed.

(** X8.  [get_user_client] and [get_objects_from_metadata] leave the
    collections as [setup_schema] does, and whenever one of them returns,
    the user's collection is there: asking for a handle or looking objects
    up for a user who has no collection creates it. *)
Theorem lookups_set_up_the_collection
    self user_id embedding_ key values q :
  collections (get_user_client self user_id embedding_ q).2
  = collections (setup_schema self user_id q).2
  ∧ collections (get_objects_from_metadata self user_id key values q).2
    = collections (setup_schema self user_id q).2
  ∧ (∀ handle,
       (get_user_client self user_id embedding_ q).1 = Returned handle →
       get_collection_name user_id
       ∈ name <$> collections (get_user_client self user_id embedding_ q).2)
  ∧ (∀ output,
       (get_objects_from_metadata self user_id key values q).1
       = Returned output →
       get_collection_name user_id
       ∈ name <$> collections
                    (get_objects_from_metadata self user_id key values q).2).
Proof.
  assert (Hhandle : (get_user_client self user_id embedding_ q).2
                    = (setup_schema self user_id q).2).
  { rewrite get_user_client_run.
    by destruct (setup_schema self user_id q).1. }
  assert (Hlookup :
    collections (get_objects_from_metadata self user_id key values q).2
    = collections (setup_schema self user_id q).2).
  { destruct (client self) as [c|] eqn:Hc.
    - rewrite (get_objects_from_metadata_run self c user_id key values q Hc).
      destruct (setup_schema self user_id q).1; [|done].
      by destruct (fails _ _).
    - rewrite (get_objects_from_metadata_not_initialised _ _ _ _ _ Hc).
      by rewrite (setup_schema_not_initialised _ _ _ Hc). }
  split; [by rewrite Hhandle |]. split; [done |]. split.
  - intros handle Hrun. rewrite Hhandle.
    destruct (client self) as [c|] eqn:Hc.
    + apply (setup_schema_returned self c user_id q Hc).
      rewrite get_user_client_run in Hrun.
      by destruct (setup_schema self user_id q).1 as [[]|].
    + by rewrite (get_user_client_not_initialised _ _ _ _ Hc) in Hrun.
  - intros output Hrun. rewrite Hlookup.
    destruct (client self) as [c|] eqn:Hc.
    + apply (setup_schema_returned self c user_id q Hc).
      by apply (get_objects_from_metadata_returned self c user_id key values
                  q output Hc Hrun).
    + by rewrite (get_objects_from_metadata_not_initialised _ _ _ _ _ Hc)
        in Hrun.
Qed.

(** X9.  With a client, when the runs return, setting up the schema for two
    users gives the same collections in either order, up to the order in
    which the service lists them. *)
Theorem setup_schema_order_irrelevant self c first second q :
  client self = Some c →
  (setup_schema self first q).1 = Returned tt →
  (setup_schema self second (setup_schema self first q).2).1 = Returned tt →
  (setup_schema self second q).1 = Returned tt →
  (setup_schema self first (setup_schema self second q).2).1 = Returned tt →
  collections
    (setup_schema self second (setup_schema self first q).2).2
  ≡ₚ collections
       (setup_schema self first (setup_schema self second q).2).2.
Proof.
  intros Hc H1 H12 H2 H21.
  destruct (setup_schema_returned self c _ _ Hc H12) as (_ & -> & _).
  destruct (setup_schema_returned self c _ _ Hc H21) as (_ & -> & _).
  destruct (setup_schema_returned self c _ _ Hc H1) as (_ & -> & _).
  destruct (setup_schema_returned self c _ _ Hc H2) as (_ & -> & _).
  destruct (decide (get_collection_name first
                    = get_collection_name second)) as [Heq | Hne].
  - assert (Hsame : user_collection first = user_collection second)
      by (unfold user_collection; by rewrite Heq).
    rewrite Heq, Hsame.
    repeat case_decide; done.
  - repeat case_decide;
      repeat match goal with
             | H : _ ∈ name <$> _ ++ _ |- _ =>
                 rewrite fmap_app in H; apply elem_of_app in H as [H | H];
                 [|apply list_elem_of_singleton in H; simpl in H]
             | H : ¬ (_ ∈ name <$> _ ++ _) |- _ =>
                 rewrite fmap_app, elem_of_app in H;
                 apply Decidable.not_or in H as [? ?]
             end;
      try done; try congruence.
    rewrite <- !app_assoc. apply Permutation_app_head. apply Permutation_swap.
Qed.

(** X10.  An adapter that the constructor returned holds a client, so its
    guard never fires: no operation run on it raises a [DbException].  With
    the service answering, [get_users] and [setup_schema] return, and
    [get_user_client] returns a handle built from the embedding given to
    the constructor. *)
Theorem constructed_adapter_is_initialised
    embedding_ self user_id request_embedding key values q :
  __init__ embedding_ = Returned self →
  (∀ message,
     (get_users self q).1 ≠ Raised (DbException message)
     ∧ (setup_schema self user_id q).1 ≠ Raised (DbException message)
     ∧ (get_user_client self user_id request_embedding q).1
       ≠ Raised (DbException message)
     ∧ (get_objects_from_metadata self user_id key values q).1
       ≠ Raised (DbException message))
  ∧ (answered GetCollections q →
     ∃ users q1, get_users self q = (Returned users, q1))
  ∧ (setup_schema_answered user_id q →
     (setup_schema self user_id q).1 = Returned tt
     ∧ ∃ handle q1,
         get_user_client self user_id request_embedding q
         = (Returned handle, q1)
         ∧ store_embedding handle = py_or embedding_ request_embedding).
Proof.
  intros Hinit.
  destruct (init_returns_client embedding_ self Hinit) as [[c Hc] Hemb].
  split; [|split].
  - intros message. split; [|split; [|split]]; intros Hraise.
    + destruct (get_users_outcome self c q Hc)
        as [[users Hrun] | (what & call & s & Hrun & _)]; congruence.
    + destruct (setup_schema_outcome self c user_id q Hc)
        as [Hrun | (what & call & s & Hrun & _)]; congruence.
    + destruct (get_user_client_outcome self c user_id request_embedding q Hc)
        as [[handle Hrun] | (what & call & s & Hrun & _)]; congruence.
    + apply (get_objects_from_metadata_raised self c) in Hraise
        as [(what & call & s & Hwhat & _) | [Hwhat _]]; [discriminate.. | done].
  - intros Hlist. rewrite (get_users_run self c q Hc), Hlist. eauto.
  - intros Hanswered.
    apply (setup_schema_returns_iff self c user_id q Hc) in Hanswered.
    split; [done |]. rewrite get_user_client_run, Hanswered.
    do 2 eexists. split; [reflexivity |]. simpl. by rewrite Hemb.
Qed.

(** X13.  The only exceptions that leave the adapter are its own
    [DbException], an exception that the service raised on a call of an
    operation, and, from [get_objects_from_metadata] alone, the
    [AttributeError] of a hit without payload.  A [KeyError] or [IndexError]
    never escapes, and the refusal of a collection name that the service
    already has is never provoked. *)
Theorem exceptions_that_escape op self q e :
  raised_by op self q = Some e →
  (∃ message, e = DbException message)
  ∨ (∃ what call s,
       e = ClientError what ∧ fails call s = Some what
       ∧ is_Some (client self)
       ∧ (∀ embedding_, op ≠ Construct embedding_)
       ∧ ∀ filters, op ≠ GetMetadataFilter filters)
  ∨ (∃ user_id key values,
       op = GetObjectsFromMetadata user_id key values
       ∧ e = AttributeError "'NoneType' object has no attribute 'get'").
Proof.
  destruct op as [emb | | user_id | user_id emb | filters | user_id key values];
    simpl; intros Hraised.
  - unfold __init__ in Hraised.
    destruct (QdrantClient_new _ _) as [made | e']; [discriminate |].
    injection Hraised as <-. left. eauto.
  - destruct (client self) as [c|] eqn:Hc.
    + destruct (get_users_outcome self c q Hc)
        as [[users Hrun] | (what & call & s & Hrun & Hfails)];
        rewrite Hrun in Hraised; [discriminate |].
      injection Hraised as <-. right. left. exists what, call, s.
      split; [done |]. split; [done |]. split; [eauto |]. split; discriminate.
    + rewrite (get_users_not_initialised self q Hc) in Hraised.
      injection Hraised as <-. left. eauto.
  - destruct (client self) as [c|] eqn:Hc.
    + destruct (setup_schema_outcome self c user_id q Hc)
        as [Hrun | (what & call & s & Hrun & Hfails)];
        rewrite Hrun in Hraised; [discriminate |].
      injection Hraised as <-. right. left. exists what, call, s.
      split; [done |]. split; [done |]. split; [eauto |]. split; discriminate.
    + rewrite (setup_schema_not_initialised _ _ _ Hc) in Hraised.
      injection Hraised as <-. left. eauto.
  - destruct (client self) as [c|] eqn:Hc.
    + destruct (get_user_client_outcome self c user_id emb q Hc)
        as [[handle Hrun] | (what & call & s & Hrun & Hfails)];
        rewrite Hrun in Hraised; [discriminate |].
      injection Hraised as <-. right. left. exists what, call, s.
      split; [done |]. split; [done |]. split; [eauto |]. split; discriminate.
    + rewrite (get_user_client_not_initialised _ _ _ _ Hc) in Hraised.
      injection Hraised as <-. left. eauto.
  - destruct (get_metadata_filter_returns filters) as [result Hrun].
    rewrite Hrun in Hraised. discriminate.
  - destruct (client self) as [c|] eqn:Hc.
    + destruct (get_objects_from_metadata self user_id key values q).1
        as [output | e'] eqn:Hrun; [discriminate |].
      injection Hraised as ->.
      apply (get_objects_from_metadata_raised self c) in Hrun
        as [(what & call & s & -> & Hfails) | [-> _]]; [| | done].
      * right. left. exists what, call, s.
        split; [done |]. split; [done |]. split; [eauto |].
        split; discriminate.
      * right. right. by exists user_id, key, values.
    + rewrite (get_objects_from_metadata_not_initialised _ _ _ _ _ Hc)
        in Hraised.
      injection Hraised as <-. left. eauto.
Qed.

(** X14.  Once a user's collection exists, the user stays listed: after any
    operation of the adapter, [get_users], its listing answered, still
    returns the identifier read back from that user's collection name. *)
Theorem provisioned_user_stays_listed op self c user_id q :
  client self = Some c →
  get_collection_name user_id ∈ name <$> collections q →
  answered GetCollections (state_after op self q) →
  ∃ users q1,
    get_users self (state_after op self q) = (Returned users, q1)
    ∧ get_user_id_from_collection (get_collection_name user_id) ∈ users.
Proof.
  intros Hc Hin Hlist.
  rewrite (get_users_run self c _ Hc), Hlist.
  do 2 eexists. split; [reflexivity |].
  destruct (collections_prefix_after_operation op self q) as [rest ->].
  apply list_elem_of_fmap in Hin as (coll & Hname & Hcoll).
  apply list_elem_of_fmap. exists coll. split; [by rewrite Hname |].
  apply elem_of_app. by left.
Qed.

(** X15.  With a client, a search that [get_objects_from_metadata] issues
    is the last call it makes, comes after [setup_schema] has returned, and
    is made on a collection that exists: the service then has a collection
    of the name the request carries.  The search is issued whenever
    [setup_schema] returns. *)
Theorem search_targets_existing_collection
    self c user_id key values q issued :
  client self = Some c →
  let after := (get_objects_from_metadata self user_id key values q).2 in
  calls after = calls q ++ issued →
  (∀ request,
     Search request ∈ issued →
     request = metadata_search user_id key values
     ∧ (∃ earlier,
          issued = earlier ++ [Search request]
          ∧ Forall (λ call, ∀ r, call ≠ Search r) earlier)
     ∧ (setup_schema self user_id q).1 = Returned tt
     ∧ collection_name request ∈ name <$> collections after)
  ∧ ((setup_schema self user_id q).1 = Returned tt →
     Search (metadata_search user_id key values) ∈ issued).
Proof.
  intros Hc after Hcalls.
  destruct (setup_schema_state self user_id q)
    as [_ (earlier & Hsetup_calls & Hearlier)].
  assert (Hnot : ∀ request, Search request ∉ earlier).
  { intros request Hin. rewrite Forall_forall in Hearlier.
    by apply (Hearlier _ Hin request). }
  subst after.
  rewrite (get_objects_from_metadata_run self c user_id key values q Hc)
    in Hcalls |- *.
  destruct (setup_schema self user_id q).1 as [[]|e] eqn:Hsetup.
  - assert (Hissued : issued
                      = earlier ++ [Search (metadata_search user_id key values)]).
    { apply (app_inv_head (calls q)). rewrite <- Hcalls.
      destruct (fails _ _); simpl; by rewrite Hsetup_calls, app_assoc. }
    assert (Hexists : get_collection_name user_id
                      ∈ name <$> collections (setup_schema self user_id q).2)
      by by apply (setup_schema_returned self c user_id q Hc).
    split.
    + intros request Hin. rewrite Hissued in Hin.
      apply elem_of_app in Hin as [Hin | Hin]; [by apply Hnot in Hin |].
      apply list_elem_of_singleton in Hin. injection Hin as ->.
      split; [done |]. split; [by exists earlier |]. split; [done |].
      by destruct (fails _ _).
    + intros _. rewrite Hissued. apply elem_of_app. right.
      apply list_elem_of_here.
  - assert (Hissued : issued = earlier).
    { apply (app_inv_head (calls q)). by rewrite <- Hcalls, <- Hsetup_calls. }
    split; [|discriminate].
    intros request Hin. rewrite Hissued in Hin. by apply Hnot in Hin.
Qed.

End Adapter.

(** ** The theorems at the sample surroundings *)

Lemma substring_whole s : String.substring 0 (String.length s) s = s.
Proof. induction s as [|a s IH]; simpl; [reflexivity | by rewrite IH]. Qed.

Lemma sample_naming_round_trips :
  naming_round_trips sample_collection_name sample_user_id.
Proof.
  intros user_id. unfold sample_user_id, sample_collection_name. simpl.
  rewrite Nat.sub_0_r. apply substring_whole.
Qed.

Lemma sample_backend_honours_limit : honours_limit sample_backend.
Proof.
  intros cs request. unfold sample_backend. rewrite length_take. lia.
Qed.

Lemma sample_setup_schema_answered user_id q :
  setup_schema_answered sample_collection_name sample_fails user_id q.
Proof. split; [reflexivity | right; reflexivity]. Qed.

Lemma sample_lookup_returns :
  ∃ output,
    (get_objects_from_metadata sample_collection_name sample_backend
       sample_fails sample_self "alice" "source" ["files__default: 12"]
       empty_service).1 = Returned output.
Proof.
  rewrite (get_objects_from_metadata_answered sample_collection_name
             sample_backend sample_fails sample_self sample_client "alice"
             "source" ["files__default: 12"] empty_service eq_refl eq_refl
             eq_refl).
  apply collect_hits_returns. unfold sample_backend. simpl.
  repeat constructor; eexists; reflexivity.
Qed.

Lemma setup_schema_idempotent_witness :
  let once :=
    (setup_schema sample_collection_name sample_fails sample_self "alice"
       empty_service).2 in
  client sample_self = Some sample_client
  ∧ (setup_schema sample_collection_name sample_fails sample_self "alice"
       empty_service).1 = Returned tt
  ∧ collections
      (setup_schema sample_collection_name sample_fails sample_self "alice"
         once).2
    = collections once.
Proof.
  intros once. split; [reflexivity |]. split; [reflexivity |].
  exact (proj1 (proj2 (proj2
    (setup_schema_idempotent sample_collection_name sample_fails sample_self
       sample_client "alice" empty_service eq_refl)) eq_refl)).
Defined.

Lemma get_users_after_setup_schema_witness :
  let q1 :=
    (setup_schema sample_collection_name sample_fails sample_self "alice"
       empty_service).2 in
  client sample_self = Some sample_client
  ∧ naming_round_trips sample_collection_name sample_user_id
  ∧ setup_schema sample_collection_name sample_fails sample_self "alice"
      empty_service = (Returned tt, q1)
  ∧ answered sample_fails GetCollections q1
  ∧ ∃ users q2,
      get_users sample_user_id sample_fails sample_self q1
      = (Returned users, q2)
      ∧ "alice" ∈ users.
Proof.
  intros q1.
  split; [reflexivity |]. split; [exact sample_naming_round_trips |].
  split; [reflexivity |]. split; [reflexivity |].
  destruct (get_users_after_setup_schema sample_collection_name
              sample_user_id sample_fails sample_self sample_client "alice"
              empty_service q1 eq_refl sample_naming_round_trips eq_refl
              eq_refl)
    as (users & q2 & Husers & Hin & _).
  exists users, q2. split; [exact Husers | exact Hin].
Defined.

Lemma get_user_client_prefers_instance_embedding_witness :
  setup_schema_answered sample_collection_name sample_fails "alice"
    empty_service
  ∧ ∃ handle q1,
      get_user_client sample_collection_name sample_fails
        {| client := Some sample_client;
           embedding := Some (EmbeddingsObject 1) |}
        "alice" (Some (EmbeddingsObject 2)) empty_service
      = (Returned handle, q1)
      ∧ store_embedding handle = Some (EmbeddingsObject 1).
Proof.
  assert (H : setup_schema_answered sample_collection_name sample_fails
                "alice" empty_service)
    by (split; [reflexivity | right; reflexivity]).
  split; [exact H |].
  destruct (get_user_client_prefers_instance_embedding sample_collection_name
              sample_fails sample_client "alice" empty_service H)
    as (handle & q1 & Hrun & Hstore & _).
  exists handle, q1. split; [exact Hrun | exact Hstore].
Defined.

Lemma init_raises_iff_client_raises_witness :
  sample_new (sample_environ !! "QDRANT_URL") (sample_environ !! "QDRANT_APIKEY")
  = Returned sample_client
  ∧ ∃ self,
      __init__ sample_environ sample_new None = Returned self
      ∧ client self = Some sample_client
      ∧ embedding self = None.
Proof.
  assert (H : sample_new (sample_environ !! "QDRANT_URL")
                (sample_environ !! "QDRANT_APIKEY")
              = Returned sample_client) by (vm_compute; reflexivity).
  split; [exact H |].
  exact (proj2 (proj2
    (init_raises_iff_client_raises sample_environ sample_new None))
    sample_client H).
Defined.

Lemma get_objects_from_metadata_result_witness :
  client sample_self = Some sample_client
  ∧ honours_limit sample_backend
  ∧ setup_schema_answered sample_collection_name sample_fails "alice"
      empty_service
  ∧ ∃ output,
      (get_objects_from_metadata sample_collection_name sample_backend
         sample_fails sample_self "alice" "source" ["files__default: 12"]
         empty_service).1 = Returned output
      ∧ (size output ≤ 100)%nat.
Proof.
  assert (H : setup_schema_answered sample_collection_name sample_fails
                "alice" empty_service)
    by (split; [reflexivity | right; reflexivity]).
  split; [reflexivity |]. split; [exact sample_backend_honours_limit |].
  split; [exact H |].
  destruct (get_objects_from_metadata_result sample_collection_name
              sample_backend sample_fails sample_self sample_client "alice"
              "source" ["files__default: 12"] empty_service eq_refl
              sample_backend_honours_limit H eq_refl)
    as (q1 & issued & _ & _ & _ & _ & _ & _ & _ & Hreturns & Hresult).
  destruct Hreturns as [output Hout].
  { unfold sample_backend. simpl.
    repeat constructor; eexists; reflexivity. }
  exists output. split; [exact Hout |].
  exact (proj1 (Hresult output Hout)).
Defined.

Lemma DbException_only_from_connection_or_guard_witness :
  let self := {| client := None; embedding := None |} in
  raised_by sample_collection_name sample_user_id sample_environ sample_new
    sample_backend sample_fails GetUsers self empty_service
  = Some (DbException "Error: Qdrant client not initialised")
  ∧ client self = None.
Proof.
  intros self.
  assert (H : raised_by sample_collection_name sample_user_id sample_environ
                sample_new sample_backend sample_fails GetUsers self
                empty_service
              = Some (DbException "Error: Qdrant client not initialised"))
    by reflexivity.
  split; [exact H |].
  exact (proj2 (DbException_only_from_connection_or_guard
                  sample_collection_name sample_user_id sample_environ
                  sample_new sample_backend sample_fails GetUsers self
                  empty_service _ H)).
Defined.

(** ** The further theorems at the sample surroundings *)

Lemma get_objects_from_metadata_keys_witness :
  client sample_self = Some sample_client
  ∧ ∃ output,
      (get_objects_from_metadata sample_collection_name sample_backend
         sample_fails sample_self "alice" "source" ["files__default: 12"]
         empty_service).1 = Returned output
      ∧ is_Some (output !! "files__default: 12")
      ∧ ¬ is_Some (output !! "files__default: 99").
Proof.
  split; [reflexivity |].
  destruct sample_lookup_returns as [output Hrun].
  exists output. split; [exact Hrun |].
  pose proof (get_objects_from_metadata_keys sample_collection_name
                sample_backend sample_fails sample_self sample_client "alice"
                "source" ["files__default: 12"] empty_service output eq_refl
                Hrun)
    as Hkeys.
  split.
  - apply Hkeys. split; [apply list_elem_of_here |].
    eexists _, _. split; [apply list_elem_of_here |].
    split; reflexivity.
  - intros Hsome. apply Hkeys in Hsome as [Hin _].
    apply list_elem_of_singleton in Hin. discriminate.
Defined.

Lemma get_objects_from_metadata_last_hit_wins_witness :
  client sample_self = Some sample_client
  ∧ ∃ output,
      (get_objects_from_metadata sample_collection_name sample_backend
         sample_fails sample_self "alice" "source" ["files__default: 12"]
         empty_service).1 = Returned output
      ∧ output !! "files__default: 12"
        = Some {| entry_id := StrId "c0ffee";
                  modified := PyStr "1700000500" |}.
Proof.
  split; [reflexivity |].
  destruct sample_lookup_returns as [output Hrun].
  exists output. split; [exact Hrun |].
  refine (get_objects_from_metadata_last_hit_wins sample_collection_name
            sample_backend sample_fails sample_self sample_client "alice"
            "source" ["files__default: 12"] empty_service output
            (take 2 sample_hits)
            {| id := StrId "c0ffee";
               payload := Some (<["source" := PyStr "files__default: 12"]>
                                  (<["modified" := PyStr "1700000500"]> ∅)) |}
            [] _ "files__default: 12" eq_refl Hrun eq_refl eq_refl _ _ _).
  - reflexivity.
  - apply list_elem_of_here.
  - constructor.
Defined.

Lemma get_objects_from_metadata_bounded_by_values_witness :
  client sample_self = Some sample_client
  ∧ ∃ output,
      (get_objects_from_metadata sample_collection_name sample_backend
         sample_fails sample_self "alice" "source" ["files__default: 12"]
         empty_service).1 = Returned output
      ∧ (size output ≤ 1)%nat.
Proof.
  split; [reflexivity |].
  destruct sample_lookup_returns as [output Hrun].
  exists output. split; [exact Hrun |].
  exact (proj1 (get_objects_from_metadata_bounded_by_values
                  sample_collection_name sample_backend sample_fails
                  sample_self sample_client "alice" "source"
                  ["files__default: 12"] empty_service output eq_refl Hrun)).
Defined.

Lemma without_client_nothing_is_called_witness :
  let self := {| client := None; embedding := None |} in
  client self = None
  ∧ setup_schema sample_collection_name sample_fails self "alice"
      empty_service
    = (Raised (DbException "Error: Qdrant client not initialised"),
       empty_service).
Proof.
  intros self. split; [reflexivity |].
  exact (proj1 (proj2 (without_client_nothing_is_called
                         sample_collection_name sample_user_id sample_backend
                         sample_fails self "alice" None "source" []
                         empty_service eq_refl))).
Defined.

Lemma lookups_set_up_the_collection_witness :
  ∃ output,
    (get_objects_from_metadata sample_collection_name sample_backend
       sample_fails sample_self "alice" "source" ["files__default: 12"]
       empty_service).1 = Returned output
    ∧ sample_collection_name "alice"
      ∈ name <$> collections
                   (get_objects_from_metadata sample_collection_name
                      sample_backend sample_fails sample_self "alice"
                      "source" ["files__default: 12"] empty_service).2.
Proof.
  destruct sample_lookup_returns as [output Hrun].
  exists output. split; [exact Hrun |].
  exact (proj2 (proj2 (proj2
    (lookups_set_up_the_collection sample_collection_name sample_backend
       sample_fails sample_self "alice" None "source"
       ["files__default: 12"] empty_service))) output Hrun).
Defined.

Lemma setup_schema_order_irrelevant_witness :
  client sample_self = Some sample_client
  ∧ collections
      (setup_schema sample_collection_name sample_fails sample_self "bob"
         (setup_schema sample_collection_name sample_fails sample_self
            "alice" empty_service).2).2
    ≡ₚ collections
         (setup_schema sample_collection_name sample_fails sample_self
            "alice"
            (setup_schema sample_collection_name sample_fails sample_self
               "bob" empty_service).2).2.
Proof.
  split; [reflexivity |].
  exact (setup_schema_order_irrelevant sample_collection_name sample_fails
           sample_self sample_client "alice" "bob" empty_service eq_refl
           eq_refl eq_refl eq_refl eq_refl).
Defined.

Lemma constructed_adapter_is_initialised_witness :
  __init__ sample_environ sample_new None = Returned sample_self
  ∧ setup_schema_answered sample_collection_name sample_fails "alice"
      empty_service
  ∧ (setup_schema sample_collection_name sample_fails sample_self "alice"
       empty_service).1 = Returned tt.
Proof.
  assert (H : __init__ sample_environ sample_new None = Returned sample_self)
    by (vm_compute; reflexivity).
  assert (Ha : setup_schema_answered sample_collection_name sample_fails
                 "alice" empty_service)
    by (split; [reflexivity | right; reflexivity]).
  split; [exact H |]. split; [exact Ha |].
  exact (proj1 (proj2 (proj2 (constructed_adapter_is_initialised
                         sample_collection_name sample_user_id sample_environ
                         sample_new sample_backend sample_fails None
                         sample_self "alice" None "source" [] empty_service
                         H)) Ha)).
Defined.

Lemma exceptions_that_escape_witness :
  raised_by sample_collection_name sample_user_id sample_environ sample_new
    sample_backend sample_outage (SetupSchema "alice") sample_self
    empty_service
  = Some (ClientError "connection refused")
  ∧ ((∃ message, ClientError "connection refused" = DbException message)
     ∨ (∃ what call s,
          ClientError "connection refused" = ClientError what
          ∧ sample_outage call s = Some what
          ∧ is_Some (client sample_self)
          ∧ (∀ embedding_, SetupSchema "alice" ≠ Construct embedding_)
          ∧ ∀ filters, SetupSchema "alice" ≠ GetMetadataFilter filters)
     ∨ ∃ user_id key values,
         SetupSchema "alice" = GetObjectsFromMetadata user_id key values
         ∧ ClientError "connection refused"
           = AttributeError "'NoneType' object has no attribute 'get'").
Proof.
  assert (H : raised_by sample_collection_name sample_user_id sample_environ
                sample_new sample_backend sample_outage (SetupSchema "alice")
                sample_self empty_service
              = Some (ClientError "connection refused"))
    by reflexivity.
  split; [exact H |].
  exact (exceptions_that_escape sample_collection_name sample_user_id
           sample_environ sample_new sample_backend sample_outage
           (SetupSchema "alice") sample_self empty_service _ H).
Defined.

Lemma provisioned_user_stays_listed_witness :
  let provisioned :=
    (setup_schema sample_collection_name sample_fails sample_self "alice"
       empty_service).2 in
  client sample_self = Some sample_client
  ∧ sample_collection_name "alice" ∈ name <$> collections provisioned
  ∧ ∃ users q1,
      get_users sample_user_id sample_fails sample_self
        (state_after sample_collection_name sample_user_id sample_backend
           sample_fails (SetupSchema "bob") sample_self provisioned)
      = (Returned users, q1)
      ∧ sample_user_id (sample_collection_name "alice") ∈ users.
Proof.
  intros provisioned.
  assert (Hin : sample_collection_name "alice"
                ∈ name <$> collections provisioned)
    by (vm_compute; apply list_elem_of_here).
  split; [reflexivity |]. split; [exact Hin |].
  exact (provisioned_user_stays_listed sample_collection_name sample_user_id
           sample_backend sample_fails (SetupSchema "bob") sample_self
           sample_client "alice" provisioned eq_refl Hin eq_refl).
Defined.

Lemma search_targets_existing_collection_witness :
  let after :=
    (get_objects_from_metadata sample_collection_name sample_backend
       sample_fails sample_self "alice" "source" ["files__default: 12"]
       empty_service).2 in
  let request :=
    metadata_search sample_collection_name "alice" "source"
      ["files__default: 12"] in
  client sample_self = Some sample_client
  ∧ calls after = calls empty_service ++ calls after
  ∧ Search request ∈ calls after
  ∧ collection_name request ∈ name <$> collections after.
Proof.
  intros after request.
  assert (Hcalls : calls after = calls empty_service ++ calls after)
    by reflexivity.
  destruct (search_targets_existing_collection sample_collection_name
              sample_backend sample_fails sample_self sample_client "alice"
              "source" ["files__default: 12"] empty_service (calls after)
              eq_refl Hcalls)
    as [Hsearch Hissued].
  assert (Hin : Search request ∈ calls after) by exact (Hissued eq_refl).
  split; [reflexivity |]. split; [exact Hcalls |]. split; [exact Hin |].
  exact (proj2 (proj2 (proj2 (Hsearch request Hin)))).
Defined.
